(** * Time-failure pattern detection (time_unittest.py)

    A shallow embedding of [Pod], [Pod.uptime] and
    [detect_time_failure_pattern], together with the fragment of Python's
    [datetime] module they rely on: bounded [timedelta] arithmetic (which
    raises [OverflowError] outside its range), [datetime] subtraction
    (which raises [TypeError] when a naive and an aware value are mixed,
    and which compares wall-clock fields when both values carry the same
    tzinfo object) and the wall clock behind [datetime.now()]. *)

From Stdlib Require Import ZArith String List Bool Lia.
From stdpp Require Import base list strings gmap.

Local Open Scope string_scope.
Local Open Scope list_scope.
Local Open Scope Z_scope.

(** ** Exceptions, results and the clock monad *)

Inductive exn : Type :=
| OverflowError
| TypeError.

Inductive result (A : Type) : Type :=
| Ok (a : A)
| Raise (e : exn).

Arguments Ok {A} a.
Arguments Raise {A} e.

Definition result_bind {A B} (r : result A) (k : A -> result B) : result B :=
  match r with
  | Ok a => k a
  | Raise e => Raise e
  end.

(** The wall clock: the value the [n]-th call of [datetime.now()] returns
    (microseconds since 0001-01-01T00:00:00, local time), and the number of
    calls made so far. *)
Record Clock : Type := mkClock {
  clock_ticks : nat -> Z;
  clock_reads : nat
}.

(** A computation that may read the clock and may raise. *)
Definition M (A : Type) : Type := Clock -> result A * Clock.

Definition ret {A} (a : A) : M A := fun c => (Ok a, c).

Definition lift {A} (r : result A) : M A := fun c => (r, c).

Definition bind {A B} (m : M A) (k : A -> M B) : M B :=
  fun c =>
    match m c with
    | (Ok a, c') => k a c'
    | (Raise e, c') => (Raise e, c')
    end.

Notation "x <- m ;; k" := (bind m (fun x => k))
  (at level 60, m at next level, right associativity).

Notation "x <-r m ;; k" := (result_bind m (fun x => k))
  (at level 60, m at next level, right associativity).

(** What a call returns (or raises), and the clock it leaves behind. *)
Definition outcome {A} (m : M A) (c : Clock) : result A := fst (m c).
Definition clock_after {A} (m : M A) (c : Clock) : Clock := snd (m c).

(** ** datetime.timedelta

    A [timedelta] is normalised to (days, seconds, microseconds) with
    [0 <= seconds < 86400], [0 <= microseconds < 10^6] and
    [|days| <= 999999999]; it is represented here by its total number of
    microseconds. *)

Definition timedelta : Type := Z.

Definition US_PER_SECOND : Z := 1000000.
Definition US_PER_MINUTE : Z := 60 * US_PER_SECOND.
Definition US_PER_HOUR : Z := 60 * US_PER_MINUTE.
Definition US_PER_DAY : Z := 24 * US_PER_HOUR.

(** [timedelta.min] and [timedelta.max]. *)
Definition TIMEDELTA_MIN : Z := - 999999999 * US_PER_DAY.
Definition TIMEDELTA_MAX : Z := 1000000000 * US_PER_DAY - 1.

Definition in_timedelta_range (us : Z) : bool :=
  (TIMEDELTA_MIN <=? us) && (us <=? TIMEDELTA_MAX).

(** The constructor: every [timedelta] the arithmetic builds goes through
    the range check on its day count. *)
Definition new_timedelta (us : Z) : result timedelta :=
  if in_timedelta_range us then Ok us else Raise OverflowError.

Definition timedelta_sub (a b : timedelta) : result timedelta :=
  new_timedelta (a - b).

Definition timedelta_neg (a : timedelta) : result timedelta :=
  new_timedelta (- a).

(** [abs(td)]: [-td] when [td.days < 0], else [td] itself. *)
Definition timedelta_abs (a : timedelta) : result timedelta :=
  if a <? 0 then timedelta_neg a else Ok a.

Definition timedelta_le (a b : timedelta) : bool := a <=? b.

(** [timedelta(0)], [timedelta(minutes=10)], [timedelta(seconds=30)]. *)
Definition timedelta_zero : timedelta := 0.
Definition default_expected_failure_time : timedelta := 10 * US_PER_MINUTE.
Definition default_tolerance : timedelta := 30 * US_PER_SECOND.

(** ** datetime.tzinfo

    A time zone object ([timezone], [ZoneInfo]): its identity, which is what
    [is] compares, and the UTC offset it gives, in microseconds, for the
    wall-clock fields and the fold of a datetime. Two datetimes built with
    one object carry the same record. *)

Record tzinfo : Type := mkTzinfo {
  tz_id : nat;
  tz_utcoffset : Z -> bool -> timedelta
}.

(** [timezone(timedelta(microseconds=offset))], as object number [id]. *)
Definition fixed_timezone (id : nat) (offset : timedelta) : tzinfo :=
  mkTzinfo id (fun _ _ => offset).

(** ** datetime.datetime

    The calendar fields as microseconds since 0001-01-01T00:00:00 of the
    wall clock, the [fold] attribute, and the [tzinfo] attribute, [None]
    for a naive value. *)

Record datetime : Type := mkDatetime {
  dt_micros : Z;
  dt_fold : bool;
  dt_tzinfo : option tzinfo
}.

(** [datetime.max] is 9999-12-31T23:59:59.999999, day 3652059. *)
Definition DATETIME_MAX : Z := 3652059 * US_PER_DAY - 1.

Definition naive (us : Z) : datetime := mkDatetime us false None.

(** [d.utcoffset()]. *)
Definition utcoffset (d : datetime) : option timedelta :=
  match dt_tzinfo d with
  | Some tz => Some (tz_utcoffset tz (dt_micros d) (dt_fold d))
  | None => None
  end.

Definition is_aware (d : datetime) : bool :=
  match dt_tzinfo d with Some _ => true | None => false end.

(** [left.tzinfo is right.tzinfo]. *)
Definition same_tzinfo (left right : datetime) : bool :=
  match dt_tzinfo left, dt_tzinfo right with
  | None, None => true
  | Some tz1, Some tz2 => Nat.eqb (tz_id tz1) (tz_id tz2)
  | _, _ => false
  end.

(** [left - right] on two datetimes. When both carry the same tzinfo
    object (or none) the offsets are not looked at and the wall-clock
    fields are subtracted; otherwise mixing a naive and an aware operand
    raises, and two aware operands are compared in UTC. *)
Definition datetime_sub (left right : datetime) : result timedelta :=
  if same_tzinfo left right then
    new_timedelta (dt_micros left - dt_micros right)
  else
    match utcoffset left, utcoffset right with
    | None, None =>
        new_timedelta (dt_micros left - dt_micros right)
    | Some offset1, Some offset2 =>
        if offset1 =? offset2 then
          new_timedelta (dt_micros left - dt_micros right)
        else
          offdiff <-r timedelta_sub offset1 offset2 ;;
          base <-r new_timedelta (dt_micros left - dt_micros right) ;;
          timedelta_sub base offdiff
    | _, _ => Raise TypeError
    end.

(** [datetime.now()]: a naive datetime; each call advances the clock. Its
    fold is left at 0: no operation of this program looks at the fold of
    a naive value. *)
Definition datetime_now : M datetime :=
  fun c =>
    (Ok (naive (clock_ticks c (clock_reads c))),
     mkClock (clock_ticks c) (S (clock_reads c))).

(** ** Pod *)

Record Pod : Type := mkPod {
  name : string;
  status : string;
  start_time : datetime;
  failure_time : option datetime
}.

(** The list literal of both status tests. *)
Definition FAILURE_STATUSES : list string :=
  ["Failed"; "Error"; "CrashLoopBackOff"].

(** [x in xs] on a list of strings. *)
Definition str_in (x : string) (xs : list string) : bool :=
  existsb (String.eqb x) xs.

(** Truth value of an [Optional[datetime]]: [None] is false, every
    datetime is true. *)
Definition truthy (o : option datetime) : bool :=
  match o with Some _ => true | None => false end.

(** [o - d] where [o] may be [None]: [None - datetime] is a [TypeError]. *)
Definition optional_datetime_sub (o : option datetime) (d : datetime)
  : result timedelta :=
  match o with
  | Some x => datetime_sub x d
  | None => Raise TypeError
  end.

(** The [uptime] property. *)
Definition uptime (self : Pod) : M timedelta :=
  if truthy (failure_time self) && str_in (status self) FAILURE_STATUSES then
    lift (optional_datetime_sub (failure_time self) (start_time self))
  else if String.eqb (status self) "Running" then
    now <- datetime_now ;;
    lift (datetime_sub now (start_time self))
  else
    ret timedelta_zero.

(** ** detect_time_failure_pattern *)

(** The [for pod in pods] loop; [matching_pods] is the list built so far. *)
Fixpoint detect_loop (pods : list Pod) (expected_failure_time tolerance : timedelta)
    (matching_pods : list Pod) : M (list Pod) :=
  match pods with
  | [] => ret matching_pods
  | pod :: rest =>
      if str_in (status pod) FAILURE_STATUSES && truthy (failure_time pod) then
        up <- uptime pod ;;
        diff <- lift (timedelta_sub up expected_failure_time) ;;
        time_diff <- lift (timedelta_abs diff) ;;
        if timedelta_le time_diff tolerance then
          detect_loop rest expected_failure_time tolerance (matching_pods ++ [pod])
        else
          detect_loop rest expected_failure_time tolerance matching_pods
      else
        detect_loop rest expected_failure_time tolerance matching_pods
  end.

Definition detect_time_failure_pattern (pods : list Pod)
    (expected_failure_time tolerance : timedelta) : M (list Pod) :=
  detect_loop pods expected_failure_time tolerance [].

(** ** One iteration of the loop *)

(** What the body of the loop decides for one pod: [Ok true] to append it,
    [Ok false] to skip it, or the exception it raises. *)
Definition pod_decision (expected_failure_time tolerance : timedelta) (pod : Pod)
  : result bool :=
  if str_in (status pod) FAILURE_STATUSES && truthy (failure_time pod) then
    up <-r optional_datetime_sub (failure_time pod) (start_time pod) ;;
    diff <-r timedelta_sub up expected_failure_time ;;
    time_diff <-r timedelta_abs diff ;;
    Ok (timedelta_le time_diff tolerance)
  else Ok false.

(** ** Well-formed values

    The ranges Python's own types enforce: a datetime lies between
    [datetime.min] and [datetime.max], the offset of a [timezone] is
    strictly between -24h and +24h. *)

Definition wf_datetime (d : datetime) : bool :=
  (0 <=? dt_micros d) && (dt_micros d <=? DATETIME_MAX) &&
  match utcoffset d with
  | Some off => (- US_PER_DAY <? off) && (off <? US_PER_DAY)
  | None => true
  end.

Definition wf_pod (p : Pod) : bool :=
  wf_datetime (start_time p) &&
  match failure_time p with
  | Some ft => wf_datetime ft
  | None => true
  end.

(** ** The specification's vocabulary *)

(** The terminal-failure states. *)
Definition terminal_failure (s : string) : Prop :=
  s = "Failed" \/ s = "Error" \/ s = "CrashLoopBackOff".

(** Steps 1 and 2 of the algorithm: the status gate and the failure-time
    gate. *)
Definition passes_gates (p : Pod) : Prop :=
  terminal_failure (status p) /\ failure_time p <> None.

(** The UTC instant of an aware datetime (the wall-clock fields for a naive
    one). *)
Definition instant (d : datetime) : Z :=
  match utcoffset d with
  | Some off => dt_micros d - off
  | None => dt_micros d
  end.

(** The signed number of microseconds between [b] and [a], as [a - b] and
    [a < b] take it: measured on the wall clock when both carry the same
    tzinfo object (or none), between the UTC instants otherwise. *)
Definition difference (a b : datetime) : Z :=
  if same_tzinfo a b then dt_micros a - dt_micros b
  else instant a - instant b.

(** [failureTime - startTime] as a signed number of microseconds (zero when
    there is no failure time). *)
Definition elapsed (p : Pod) : Z :=
  match failure_time p with
  | Some ft => difference ft (start_time p)
  | None => 0
  end.

(** [|failureTime - startTime - expectedFailureTime|]. *)
Definition deviation (p : Pod) (expected_failure_time : timedelta) : Z :=
  Z.abs (elapsed p - expected_failure_time).

(** The filter of the specification: both gates and the tolerance test. *)
Definition matches (expected_failure_time tolerance : timedelta) (p : Pod) : bool :=
  str_in (status p) FAILURE_STATUSES && truthy (failure_time p) &&
  (deviation p expected_failure_time <=? tolerance).

(** The inputs on which the duration arithmetic of the loop raises nothing:
    an instance that passes both gates has timestamps of one kind (both
    naive or both aware), and its uptime minus the expected failure time
    is a representable [timedelta]. *)
Definition arithmetic_safe (expected_failure_time : timedelta) (p : Pod) : bool :=
  if str_in (status p) FAILURE_STATUSES then
    match failure_time p with
    | Some ft =>
        Bool.eqb (is_aware ft) (is_aware (start_time p)) &&
        in_timedelta_range (elapsed p - expected_failure_time)
    | None => true
    end
  else true.

(** ** The test-suite's scenarios *)

Module Scenarios.

(** [setUp]: [base_time = datetime.now()], here 2025-01-01T12:00:00. *)
Definition base_us : Z := 739251 * US_PER_DAY + 12 * US_PER_HOUR.

Definition clock0 : Clock := mkClock (fun n => base_us + Z.of_nat n) 0.

Definition minutes (n : Z) : Z := n * US_PER_MINUTE.
Definition seconds (n : Z) : Z := n * US_PER_SECOND.
Definition hours (n : Z) : Z := n * US_PER_HOUR.

(** [base_time - before] and [base_time + after]. *)
Definition ago (before : Z) : datetime := naive (base_us - before).
Definition ahead (after : Z) : datetime := naive (base_us + after).

Definition names (r : result (list Pod)) : result (list string) :=
  match r with
  | Ok l => Ok (map name l)
  | Raise e => Raise e
  end.

Definition pods_10_minutes : list Pod :=
  [ mkPod "pod-1" "Failed" (ago (minutes 11)) (Some (ago (minutes 1)));
    mkPod "pod-2" "Error" (ago (minutes 10 + seconds 15)) (Some (ago (seconds 15)));
    mkPod "pod-3" "CrashLoopBackOff" (ago (minutes 9 + seconds 45))
          (Some (ahead (seconds 15))) ].

Definition pods_different_times : list Pod :=
  [ mkPod "pod-1" "Failed" (ago (minutes 5)) (Some (ago 0));
    mkPod "pod-2" "Error" (ago (minutes 20)) (Some (ago (minutes 5)));
    mkPod "pod-3" "Failed" (ago (hours 1)) (Some (ago 0)) ].

Definition pods_running : list Pod :=
  [ mkPod "pod-1" "Running" (ago (minutes 15)) None;
    mkPod "pod-2" "Running" (ago (minutes 5)) None;
    mkPod "pod-3" "Failed" (ago (minutes 10 + seconds 5)) (Some (ago (seconds 5))) ].

Definition pods_custom : list Pod :=
  [ mkPod "pod-1" "Failed" (ago (minutes 5 + seconds 10)) (Some (ago (seconds 10)));
    mkPod "pod-2" "Error" (ago (minutes 4 + seconds 50)) (Some (ahead (seconds 10)));
    mkPod "pod-3" "Failed" (ago (minutes 10)) (Some (ago 0)) ].

Definition failed_without_time : Pod :=
  mkPod "pod-1" "Failed" (ago (minutes 10)) None.
Definition failed_at_10_minutes : Pod :=
  mkPod "pod-2" "Error" (ago (minutes 10)) (Some (ago 0)).

Definition pods_without_failure_time : list Pod :=
  [ failed_without_time; failed_at_10_minutes ].

(** Further pods, outside the test-suite. *)

(** Running for exactly ten minutes when [clock0] is first read. *)
Definition running_10_minutes : Pod :=
  mkPod "pod-1" "Running" (ago (minutes 10)) None.

Definition pending : Pod :=
  mkPod "pod-4" "Pending" (ago (minutes 10)) (Some (ago 0)).


(** A naive start time and an aware (UTC) failure time. *)
Definition mixed_kinds : Pod :=
  mkPod "pod-6" "Failed" (ago (minutes 10))
      (Some (mkDatetime base_us false (Some (fixed_timezone 0 0)))).

(** Uptimes of 10min30s, on the boundary of the default tolerance, and of
    one microsecond more. *)
Definition on_boundary : Pod :=
  mkPod "pod-7" "Failed" (ago (minutes 10 + seconds 30)) (Some (ago 0)).
Definition past_boundary : Pod :=
  mkPod "pod-8" "Failed" (ago (minutes 10 + seconds 30 + 1)) (Some (ago 0)).

Definition run (pods : list Pod) : result (list string) :=
  names (outcome (detect_time_failure_pattern pods
                    default_expected_failure_time default_tolerance) clock0).

End Scenarios.

(** ** A time zone with daylight saving time *)

Module Zones.

(** Europe/Paris in 2025, on the wall clock: the clocks go from 02:00 to
    03:00 on 30 March and from 03:00 back to 02:00 on 26 October. *)
Definition dst_start : Z := 63878896800000000.
Definition dst_end : Z := 63897044400000000.

(** UTC+2 in summer and UTC+1 in winter; in the skipped hour and in the
    repeated hour the fold chooses between the two. *)
Definition paris_utcoffset (wall : Z) (fold : bool) : timedelta :=
  if (dst_start <=? wall) && (wall <? dst_start + US_PER_HOUR) then
    if fold then 2 * US_PER_HOUR else US_PER_HOUR
  else if (dst_start + US_PER_HOUR <=? wall) && (wall <? dst_end - US_PER_HOUR) then
    2 * US_PER_HOUR
  else if (dst_end - US_PER_HOUR <=? wall) && (wall <? dst_end) then
    if fold then US_PER_HOUR else 2 * US_PER_HOUR
  else US_PER_HOUR.

(** [ZoneInfo("Europe/Paris")], and a second object for the same zone, as
    [ZoneInfo.no_cache("Europe/Paris")] gives. *)
Definition paris : tzinfo := mkTzinfo 1 paris_utcoffset.
Definition paris_no_cache : tzinfo := mkTzinfo 2 paris_utcoffset.

(** 2025-03-30 01:55 and 03:05 in Paris: ten minutes apart in UTC, seventy
    on the wall clock. *)
Definition before_the_change : Z := 63878896500000000.
Definition after_the_change : Z := 63878900700000000.

Definition across_dst : Pod :=
  mkPod "pod-10" "Failed"
    (mkDatetime before_the_change false (Some paris))
    (Some (mkDatetime after_the_change false (Some paris))).

Definition across_dst_two_objects : Pod :=
  mkPod "pod-11" "Failed"
    (mkDatetime before_the_change false (Some paris))
    (Some (mkDatetime after_the_change false (Some paris_no_cache))).

(** 2025-10-26 in Paris: started at 02:10 in the second pass of the
    repeated hour, failed at 02:30 in the first pass, forty minutes
    earlier in UTC and twenty minutes later on the wall clock. *)
Definition in_repeated_hour : Pod :=
  mkPod "pod-12" "Failed"
    (mkDatetime (dst_end - 50 * US_PER_MINUTE) true (Some paris))
    (Some (mkDatetime (dst_end - 30 * US_PER_MINUTE) false (Some paris))).

(** From noon to noon across the change of 30 March: one day on the wall
    clock, 23 hours in UTC. From noon on 25 October to 11:00 on the 26th:
    23 hours on the wall clock, one day in UTC. *)
Definition noon_to_noon : Pod :=
  mkPod "pod-13" "Failed"
    (mkDatetime (dst_start - 14 * US_PER_HOUR) false (Some paris))
    (Some (mkDatetime (dst_start + 10 * US_PER_HOUR) false (Some paris))).

Definition noon_to_eleven : Pod :=
  mkPod "pod-14" "Failed"
    (mkDatetime (dst_end - 15 * US_PER_HOUR) false (Some paris))
    (Some (mkDatetime (dst_end + 8 * US_PER_HOUR) false (Some paris))).

End Zones.

(** ** Changing fields the loop does not look at *)

(** The same pod with both timestamps moved by [delta] microseconds on the
    wall clock, as [d + timedelta(microseconds=delta)] does: the tzinfo is
    kept and the fold is reset. *)
Definition shift_datetime (delta : Z) (d : datetime) : datetime :=
  mkDatetime (dt_micros d + delta) false (dt_tzinfo d).

(** A pod whose two timestamps are measured on one wall clock: both naive,
    or both with the same tzinfo object. *)
Definition one_wall_clock (p : Pod) : bool :=
  match failure_time p with
  | Some ft => same_tzinfo ft (start_time p)
  | None => true
  end.

Definition shift_pod (delta : Z) (p : Pod) : Pod :=
  mkPod (name p) (status p) (shift_datetime delta (start_time p))
        (option_map (shift_datetime delta) (failure_time p)).

(** The same pod under another name. *)
Definition rename_pod (f : string -> string) (p : Pod) : Pod :=
  mkPod (f (name p)) (status p) (start_time p) (failure_time p).

Definition result_map {A B} (f : A -> B) (r : result A) : result B :=
  match r with
  | Ok a => Ok (f a)
  | Raise e => Raise e
  end.

(** A Running pod whose start time is timezone-aware (UTC). *)
Definition running_aware : Pod :=
  mkPod "pod-9" "Running"
    (mkDatetime Scenarios.base_us false (Some (fixed_timezone 0 0))) None.

(** A reading of the clock that is a datetime. *)
Definition wf_clock (c : Clock) : bool :=
  (0 <=? clock_ticks c (clock_reads c)) &&
  (clock_ticks c (clock_reads c) <=? DATETIME_MAX).

(** ** The rest of the datetime module, as the test-suite uses it *)

Definition in_datetime_range (us : Z) : bool :=
  (0 <=? us) && (us <=? DATETIME_MAX).

(** [timedelta(hours=h, minutes=m, seconds=s)]. *)
Definition timedelta_of (h m s : Z) : result timedelta :=
  new_timedelta (h * US_PER_HOUR + m * US_PER_MINUTE + s * US_PER_SECOND).

(** [d + td] and [d - td]: the tzinfo is kept, the fold reset; a date outside
    [datetime.min .. datetime.max] is an [OverflowError]. *)
Definition datetime_add_timedelta (d : datetime) (td : timedelta) : result datetime :=
  if in_datetime_range (dt_micros d + td)
  then Ok (mkDatetime (dt_micros d + td) false (dt_tzinfo d))
  else Raise OverflowError.

Definition datetime_sub_timedelta (d : datetime) (td : timedelta) : result datetime :=
  if in_datetime_range (dt_micros d - td)
  then Ok (mkDatetime (dt_micros d - td) false (dt_tzinfo d))
  else Raise OverflowError.

(** ** unittest *)

(** What stops a test: a failed assertion, an index out of range, or an
    exception of the code under test. *)
Inductive test_exn : Type :=
| AssertionError
| IndexError
| Raised (e : exn).

Inductive test_result (A : Type) : Type :=
| Passed (a : A)
| Stopped (e : test_exn).

Arguments Passed {A} a.
Arguments Stopped {A} e.

(** A step of a test method. *)
Definition T (A : Type) : Type := Clock -> test_result A * Clock.

Definition t_ret {A} (a : A) : T A := fun c => (Passed a, c).

Definition t_bind {A B} (m : T A) (k : A -> T B) : T B :=
  fun c =>
    match m c with
    | (Passed a, c') => k a c'
    | (Stopped e, c') => (Stopped e, c')
    end.

Notation "x <-t m ;; k" := (t_bind m (fun x => k))
  (at level 60, m at next level, right associativity).

(** A call into the code under test, and a bare datetime operation. *)
Definition t_call {A} (m : M A) : T A :=
  fun c =>
    match m c with
    | (Ok a, c') => (Passed a, c')
    | (Raise e, c') => (Stopped (Raised e), c')
    end.

Definition t_eval {A} (r : result A) : T A := t_call (lift r).

(** [self.assertEqual(first, second)]. *)
Definition assertEqual {A} `{EqDecision A} (first second : A) : T unit :=
  fun c =>
    (if decide (first = second) then Passed tt else Stopped AssertionError, c).

(** [result[i]]. *)
Definition getitem (l : list Pod) (i : nat) : T Pod :=
  fun c =>
    (match l !! i with
     | Some p => Passed p
     | None => Stopped IndexError
     end, c).

(** [set(p.name for p in result)]. *)
Definition name_set (l : list Pod) : gset string :=
  list_to_set (map name l).

Module TestTimeFailurePattern.

(** [self.base_time - timedelta(hours=h, minutes=m, seconds=s)] and
    [self.base_time + timedelta(...)]. *)
Definition before (base_time : datetime) (h m s : Z) : T datetime :=
  td <-t t_eval (timedelta_of h m s) ;;
  t_eval (datetime_sub_timedelta base_time td).

Definition after (base_time : datetime) (h m s : Z) : T datetime :=
  td <-t t_eval (timedelta_of h m s) ;;
  t_eval (datetime_add_timedelta base_time td).

(** [setUp] stores [datetime.now()] in [self.base_time]. *)
Definition setUp : T datetime := t_call datetime_now.

Definition test_detect_pods_failing_at_10_minutes (base_time : datetime) : T unit :=
  s1 <-t before base_time 0 11 0 ;;
  f1 <-t before base_time 0 1 0 ;;
  s2 <-t before base_time 0 10 15 ;;
  f2 <-t before base_time 0 0 15 ;;
  s3 <-t before base_time 0 9 45 ;;
  f3 <-t after base_time 0 0 15 ;;
  let pods :=
    [ mkPod "pod-1" "Failed" s1 (Some f1);
      mkPod "pod-2" "Error" s2 (Some f2);
      mkPod "pod-3" "CrashLoopBackOff" s3 (Some f3) ] in
  result <-t t_call (detect_time_failure_pattern pods
                       default_expected_failure_time default_tolerance) ;;
  _ <-t assertEqual (length result) 3%nat ;;
  assertEqual (name_set result) {[ "pod-1"; "pod-2"; "pod-3" ]}.

Definition test_ignore_pods_failing_at_different_times (base_time : datetime)
  : T unit :=
  s1 <-t before base_time 0 5 0 ;;
  s2 <-t before base_time 0 20 0 ;;
  f2 <-t before base_time 0 5 0 ;;
  s3 <-t before base_time 1 0 0 ;;
  let pods :=
    [ mkPod "pod-1" "Failed" s1 (Some base_time);
      mkPod "pod-2" "Error" s2 (Some f2);
      mkPod "pod-3" "Failed" s3 (Some base_time) ] in
  result <-t t_call (detect_time_failure_pattern pods
                       default_expected_failure_time default_tolerance) ;;
  assertEqual (length result) 0%nat.

Definition test_ignore_running_pods (base_time : datetime) : T unit :=
  s1 <-t before base_time 0 15 0 ;;
  s2 <-t before base_time 0 5 0 ;;
  s3 <-t before base_time 0 10 5 ;;
  f3 <-t before base_time 0 0 5 ;;
  let pods :=
    [ mkPod "pod-1" "Running" s1 None;
      mkPod "pod-2" "Running" s2 None;
      mkPod "pod-3" "Failed" s3 (Some f3) ] in
  result <-t t_call (detect_time_failure_pattern pods
                       default_expected_failure_time default_tolerance) ;;
  _ <-t assertEqual (length result) 1%nat ;;
  first <-t getitem result 0 ;;
  assertEqual (name first) "pod-3".

Definition test_custom_failure_time_and_tolerance (base_time : datetime) : T unit :=
  s1 <-t before base_time 0 5 10 ;;
  f1 <-t before base_time 0 0 10 ;;
  s2 <-t before base_time 0 4 50 ;;
  f2 <-t after base_time 0 0 10 ;;
  s3 <-t before base_time 0 10 0 ;;
  let pods :=
    [ mkPod "pod-1" "Failed" s1 (Some f1);
      mkPod "pod-2" "Error" s2 (Some f2);
      mkPod "pod-3" "Failed" s3 (Some base_time) ] in
  expected_failure_time <-t t_eval (timedelta_of 0 5 0) ;;
  tolerance <-t t_eval (timedelta_of 0 0 15) ;;
  result <-t t_call (detect_time_failure_pattern pods expected_failure_time
                       tolerance) ;;
  _ <-t assertEqual (length result) 2%nat ;;
  assertEqual (name_set result) {[ "pod-1"; "pod-2" ]}.

Definition test_empty_pod_list (base_time : datetime) : T unit :=
  result <-t t_call (detect_time_failure_pattern []
                       default_expected_failure_time default_tolerance) ;;
  assertEqual (length result) 0%nat.

Definition test_pods_without_failure_time (base_time : datetime) : T unit :=
  s1 <-t before base_time 0 10 0 ;;
  s2 <-t before base_time 0 10 0 ;;
  let pods :=
    [ mkPod "pod-1" "Failed" s1 None;
      mkPod "pod-2" "Error" s2 (Some base_time) ] in
  result <-t t_call (detect_time_failure_pattern pods
                       default_expected_failure_time default_tolerance) ;;
  _ <-t assertEqual (length result) 1%nat ;;
  first <-t getitem result 0 ;;
  assertEqual (name first) "pod-2".

(** One test of the class: a fresh instance, [setUp], then the method. *)
Definition run_test (test : datetime -> T unit) : T unit :=
  base_time <-t setUp ;;
  test base_time.

(** The clock readings from which every timestamp the tests build is a
    date: at least one hour after [datetime.min] and at least fifteen
    seconds before [datetime.max]. *)
Definition clock_in_range (c : Clock) : bool :=
  (US_PER_HOUR <=? clock_ticks c (clock_reads c)) &&
  (clock_ticks c (clock_reads c) <=? DATETIME_MAX - 15 * US_PER_SECOND).

End TestTimeFailurePattern.

(** ** timedelta and datetime arithmetic *)

Lemma in_timedelta_range_spec (us : Z) :
  in_timedelta_range us = true <-> TIMEDELTA_MIN <= us <= TIMEDELTA_MAX.
Proof. unfold in_timedelta_range. rewrite andb_true_iff, !Z.leb_le. tauto. Qed.

Lemma new_timedelta_ok (us : Z) :
  in_timedelta_range us = true -> new_timedelta us = Ok us.
Proof. unfold new_timedelta. now intros ->. Qed.

Lemma new_timedelta_inv (us : Z) (td : timedelta) :
  new_timedelta us = Ok td -> td = us /\ in_timedelta_range us = true.
Proof.
  unfold new_timedelta. destruct (in_timedelta_range us); [|discriminate].
  intros [= <-]. split; reflexivity.
Qed.

Lemma timedelta_bounds :
  TIMEDELTA_MIN = -86399999913600000000 /\ TIMEDELTA_MAX = 86399999999999999999 /\
  DATETIME_MAX = 315537897599999999 /\ US_PER_DAY = 86400000000.
Proof. repeat split; reflexivity. Qed.

(** [abs] never raises on a representable duration: the range is wider on
    the positive side. *)
Lemma timedelta_abs_ok (td : timedelta) :
  in_timedelta_range td = true -> timedelta_abs td = Ok (Z.abs td).
Proof.
  intros Hr. pose proof Hr as Hr'. apply in_timedelta_range_spec in Hr'.
  destruct timedelta_bounds as (Hmin & Hmax & _).
  unfold timedelta_abs, timedelta_neg.
  destruct (Z.ltb_spec td 0) as [Hneg | Hpos].
  - rewrite new_timedelta_ok; [f_equal; lia|].
    apply in_timedelta_range_spec. lia.
  - f_equal. lia.
Qed.

Lemma timedelta_abs_inv (td r : timedelta) :
  timedelta_abs td = Ok r -> r = Z.abs td.
Proof.
  unfold timedelta_abs, timedelta_neg.
  destruct (Z.ltb_spec td 0) as [Hneg | Hpos].
  - intros H. apply new_timedelta_inv in H as [-> _]. lia.
  - intros [= <-]. lia.
Qed.

(** Whatever path [datetime_sub] takes, a value it returns is the
    difference of the two datetimes. *)
Lemma datetime_sub_inv (a b : datetime) (td : timedelta) :
  datetime_sub a b = Ok td ->
  td = difference a b /\ is_aware a = is_aware b /\
  in_timedelta_range td = true.
Proof.
  unfold datetime_sub, difference, instant, utcoffset, same_tzinfo, is_aware,
    timedelta_sub.
  destruct (dt_tzinfo a) as [tz1|], (dt_tzinfo b) as [tz2|]; try discriminate.
  - destruct (Nat.eqb (tz_id tz1) (tz_id tz2)).
    + intros H. apply new_timedelta_inv in H as [-> Hr]. now repeat split.
    + set (o1 := tz_utcoffset tz1 _ _). set (o2 := tz_utcoffset tz2 _ _).
      destruct (Z.eqb_spec o1 o2) as [Heq | Hne].
      * intros H. apply new_timedelta_inv in H as [-> Hr].
        repeat split; [lia | exact Hr].
      * destruct (new_timedelta (o1 - o2)) as [offdiff|] eqn:Hoff; [|discriminate].
        apply new_timedelta_inv in Hoff as [-> _]. simpl.
        destruct (new_timedelta (dt_micros a - dt_micros b)) as [base|] eqn:Hbase;
          [|discriminate].
        apply new_timedelta_inv in Hbase as [-> _]. simpl.
        intros H. apply new_timedelta_inv in H as [-> Hr].
        repeat split; [lia | exact Hr].
  - intros H. apply new_timedelta_inv in H as [-> Hr]. now repeat split.
Qed.

Lemma wf_datetime_spec (d : datetime) :
  wf_datetime d = true ->
  0 <= dt_micros d <= DATETIME_MAX /\
  forall off, utcoffset d = Some off -> - US_PER_DAY < off < US_PER_DAY.
Proof.
  unfold wf_datetime. rewrite !andb_true_iff, !Z.leb_le. intros [[H0 H1] H2].
  split; [lia|]. intros off Hoff. rewrite Hoff in H2.
  apply andb_true_iff in H2 as [H2 H3]. apply Z.ltb_lt in H2, H3. lia.
Qed.

(** Two well-formed datetimes of one kind always have a difference: it is
    far inside the range of [timedelta]. *)
Lemma datetime_sub_ok (a b : datetime) :
  wf_datetime a = true -> wf_datetime b = true ->
  is_aware a = is_aware b ->
  datetime_sub a b = Ok (difference a b).
Proof.
  intros Ha Hb Hk.
  apply wf_datetime_spec in Ha as [Ha Hoa], Hb as [Hb Hob].
  destruct timedelta_bounds as (Hmin & Hmax & Hdt & Hday).
  unfold datetime_sub, difference, instant, utcoffset, same_tzinfo, is_aware,
    timedelta_sub in *.
  destruct (dt_tzinfo a) as [tz1|], (dt_tzinfo b) as [tz2|]; try discriminate.
  - destruct (Nat.eqb (tz_id tz1) (tz_id tz2)).
    + apply new_timedelta_ok, in_timedelta_range_spec. lia.
    + specialize (Hoa _ eq_refl). specialize (Hob _ eq_refl).
      set (o1 := tz_utcoffset tz1 _ _) in *.
      set (o2 := tz_utcoffset tz2 _ _) in *.
      destruct (Z.eqb_spec o1 o2) as [Heq | Hne].
      * rewrite new_timedelta_ok; [f_equal; lia|].
        apply in_timedelta_range_spec. lia.
      * rewrite (new_timedelta_ok (o1 - o2))
          by (apply in_timedelta_range_spec; lia).
        simpl.
        rewrite (new_timedelta_ok (dt_micros a - dt_micros b))
          by (apply in_timedelta_range_spec; lia).
        simpl.
        rewrite new_timedelta_ok; [f_equal; lia|].
        apply in_timedelta_range_spec. lia.
  - apply new_timedelta_ok, in_timedelta_range_spec. lia.
Qed.

Lemma datetime_sub_mixed (a b : datetime) :
  is_aware a <> is_aware b -> datetime_sub a b = Raise TypeError.
Proof.
  unfold datetime_sub, same_tzinfo, utcoffset, is_aware.
  destruct (dt_tzinfo a), (dt_tzinfo b); congruence.
Qed.

(** Under one tzinfo object, or none, the subtraction is the one of the
    wall-clock fields: neither an offset nor a fold is looked at. *)
Lemma datetime_sub_same_tzinfo (a b : datetime) :
  same_tzinfo a b = true ->
  datetime_sub a b = new_timedelta (dt_micros a - dt_micros b).
Proof. unfold datetime_sub. now intros ->. Qed.

(** The fold of a naive operand does not enter the subtraction. *)
Lemma datetime_sub_naive_fold (us : Z) (fold : bool) (b : datetime) :
  datetime_sub (mkDatetime us fold None) b = datetime_sub (naive us) b /\
  datetime_sub b (mkDatetime us fold None) = datetime_sub b (naive us).
Proof. split; reflexivity. Qed.

(** ** The status test *)

Lemma str_in_failure_statuses (s : string) :
  str_in s FAILURE_STATUSES = true <-> terminal_failure s.
Proof.
  unfold str_in, FAILURE_STATUSES, terminal_failure. simpl.
  rewrite !orb_true_iff, !String.eqb_eq. intuition discriminate.
Qed.

Lemma str_in_running : str_in "Running" FAILURE_STATUSES = false.
Proof. reflexivity. Qed.

Lemma truthy_spec (o : option datetime) : truthy o = true <-> o <> None.
Proof. destruct o; simpl; split; congruence. Qed.

(** Behind both gates [uptime] takes its first branch, and leaves the clock
    alone. *)
Lemma uptime_gated (p : Pod) (c : Clock) :
  str_in (status p) FAILURE_STATUSES && truthy (failure_time p) = true ->
  uptime p c = (optional_datetime_sub (failure_time p) (start_time p), c).
Proof.
  intros H. apply andb_true_iff in H as [Hs Hf].
  unfold uptime. rewrite Hs, Hf. reflexivity.
Qed.

Section Loop.

(** The two duration parameters of one call. *)
Variables (e t : timedelta).

Lemma detect_loop_cons (p : Pod) (rest : list Pod)
    (acc : list Pod) (c : Clock) :
  detect_loop (p :: rest) e t acc c =
  match pod_decision e t p with
  | Ok true => detect_loop rest e t (acc ++ [p]) c
  | Ok false => detect_loop rest e t acc c
  | Raise x => (Raise x, c)
  end.
Proof.
  unfold pod_decision. cbn [detect_loop].
  destruct (str_in (status p) FAILURE_STATUSES && truthy (failure_time p)) eqn:Hg;
    [|reflexivity].
  unfold bind at 1. rewrite (uptime_gated p c Hg).
  destruct (optional_datetime_sub (failure_time p) (start_time p)) as [up|x];
    [|reflexivity].
  unfold bind, lift. simpl.
  destruct (timedelta_sub up e) as [diff|x]; [|reflexivity]. simpl.
  destruct (timedelta_abs diff) as [time_diff|x]; [|reflexivity]. simpl.
  destruct (timedelta_le time_diff t); reflexivity.
Qed.

(** A decision that is reached is the decision of the specification. *)
Lemma pod_decision_inv (p : Pod) (b : bool) :
  pod_decision e t p = Ok b -> b = matches e t p.
Proof.
  unfold pod_decision, matches, deviation, elapsed.
  destruct (str_in (status p) FAILURE_STATUSES && truthy (failure_time p)) eqn:Hg;
    [|now intros [= <-]].
  destruct (failure_time p) as [ft|];
    [|now rewrite andb_false_r in Hg].
  simpl optional_datetime_sub.
  destruct (datetime_sub ft (start_time p)) as [up|] eqn:Hup; [|discriminate].
  apply datetime_sub_inv in Hup as (-> & _ & _). simpl.
  destruct (timedelta_sub _ e) as [diff|] eqn:Hdiff; [|discriminate].
  apply new_timedelta_inv in Hdiff as [-> _]. simpl.
  destruct (timedelta_abs _) as [time_diff|] eqn:Habs; [|discriminate].
  apply timedelta_abs_inv in Habs as ->. simpl.
  now intros [= <-].
Qed.

(** On a well-formed pod for which the arithmetic is safe, the decision is
    reached. *)
Lemma pod_decision_safe (p : Pod) :
  wf_pod p = true -> arithmetic_safe e p = true ->
  pod_decision e t p = Ok (matches e t p).
Proof.
  unfold wf_pod, arithmetic_safe, pod_decision, matches, deviation, elapsed.
  intros Hwf Hsafe. apply andb_true_iff in Hwf as [Hst Hft].
  destruct (str_in (status p) FAILURE_STATUSES); [|reflexivity].
  destruct (failure_time p) as [ft|]; [|reflexivity].
  apply andb_true_iff in Hsafe as [Hk Hr]. apply eqb_prop in Hk.
  simpl. rewrite (datetime_sub_ok ft (start_time p) Hft Hst Hk). simpl.
  unfold timedelta_sub. rewrite (new_timedelta_ok _ Hr). simpl.
  rewrite (timedelta_abs_ok _ Hr). reflexivity.
Qed.

(** ** The loop as a filter *)

Lemma detect_loop_clock (pods : list Pod) (acc : list Pod)
    (c : Clock) :
  snd (detect_loop pods e t acc c) = c.
Proof.
  revert acc. induction pods as [|p rest IH]; intros acc; [reflexivity|].
  rewrite detect_loop_cons.
  destruct (pod_decision e t p) as [[|]|x]; [apply IH | apply IH | reflexivity].
Qed.

(** When every decision is reached the loop appends the matching pods, in
    order, to what it had. *)
Lemma detect_loop_decided (pods : list Pod) (acc : list Pod)
    (c : Clock) :
  Forall (fun p => pod_decision e t p = Ok (matches e t p)) pods ->
  detect_loop pods e t acc c = (Ok (acc ++ List.filter (matches e t) pods), c).
Proof.
  intros H. revert acc. induction H as [|p rest Hp _ IH]; intros acc.
  - simpl. unfold ret. now rewrite app_nil_r.
  - rewrite detect_loop_cons, Hp. simpl.
    destruct (matches e t p).
    + rewrite IH, <- app_assoc. reflexivity.
    + apply IH.
Qed.

(** When the loop returns, every decision was reached. *)
Lemma detect_loop_returns (pods : list Pod) (acc r : list Pod)
    (c : Clock) :
  fst (detect_loop pods e t acc c) = Ok r ->
  Forall (fun p => pod_decision e t p = Ok (matches e t p)) pods.
Proof.
  revert acc. induction pods as [|p rest IH]; intros acc; [constructor|].
  rewrite detect_loop_cons.
  destruct (pod_decision e t p) as [b|x] eqn:Hd; [|discriminate].
  pose proof (pod_decision_inv p b Hd) as ->.
  intros H. constructor; [exact Hd|].
  destruct (matches e t p); eapply IH; exact H.
Qed.

Lemma detect_returns_filter (pods : list Pod) (r : list Pod)
    (c : Clock) :
  outcome (detect_time_failure_pattern pods e t) c = Ok r ->
  r = List.filter (matches e t) pods.
Proof.
  unfold outcome, detect_time_failure_pattern. intros H.
  pose proof (detect_loop_returns _ _ _ _ H) as Hall.
  rewrite (detect_loop_decided _ [] c Hall) in H. simpl in H.
  now injection H as <-.
Qed.

Lemma detect_safe (pods : list Pod) (c : Clock) :
  forallb wf_pod pods = true ->
  forallb (arithmetic_safe e) pods = true ->
  detect_time_failure_pattern pods e t c = (Ok (List.filter (matches e t) pods), c).
Proof.
  intros Hwf Hsafe. unfold detect_time_failure_pattern.
  rewrite detect_loop_decided; [reflexivity|].
  apply List.Forall_forall. intros p Hp.
  rewrite forallb_forall in Hwf, Hsafe.
  apply pod_decision_safe; [apply Hwf | apply Hsafe]; exact Hp.
Qed.

End Loop.

(** The pods a filter keeps form a sub-sequence of its input. *)
Lemma filter_sublist {A} (f : A -> bool) (l : list A) :
  sublist (List.filter f l) l.
Proof.
  induction l as [|x l IH]; simpl; [constructor|].
  destruct (f x); [apply sublist_skip | apply sublist_cons]; exact IH.
Qed.

Lemma filter_idempotent {A} (f : A -> bool) (l : list A) :
  List.filter f (List.filter f l) = List.filter f l.
Proof.
  induction l as [|x l IH]; simpl; [reflexivity|].
  destruct (f x) eqn:Hx; simpl; [rewrite Hx, IH|]; auto.
Qed.

Lemma matches_spec (e t : timedelta) (p : Pod) :
  matches e t p = true <-> passes_gates p /\ deviation p e <= t.
Proof.
  unfold matches, passes_gates.
  rewrite !andb_true_iff, str_in_failure_statuses, truthy_spec, Z.leb_le.
  tauto.
Qed.

(** A pod whose decision is [Ok false] can be dropped from the input
    without changing anything. *)
Lemma detect_loop_skip (before after : list Pod) (p : Pod) (e t : timedelta)
    (acc : list Pod) (c : Clock) :
  pod_decision e t p = Ok false ->
  detect_loop (before ++ p :: after) e t acc c =
  detect_loop (before ++ after) e t acc c.
Proof.
  intros Hp. revert acc.
  induction before as [|q before IH]; intros acc; simpl app.
  - now rewrite detect_loop_cons, Hp.
  - rewrite !detect_loop_cons.
    destruct (pod_decision e t q) as [[|]|x]; auto.
Qed.

Lemma pod_decision_ungated (e t : timedelta) (p : Pod) :
  ~ passes_gates p -> pod_decision e t p = Ok false.
Proof.
  intros Hg. unfold pod_decision.
  destruct (str_in (status p) FAILURE_STATUSES && truthy (failure_time p)) eqn:H;
    [|reflexivity].
  exfalso. apply Hg. apply andb_true_iff in H as [Hs Hf].
  split; [now apply str_in_failure_statuses | now apply truthy_spec].
Qed.

(** Behind the gates, a decision that is reached went through an uptime
    that is the elapsed time, and through safe arithmetic. *)
Lemma pod_decision_gated_inv (e t : timedelta) (p : Pod) (b : bool) :
  passes_gates p -> pod_decision e t p = Ok b ->
  optional_datetime_sub (failure_time p) (start_time p) = Ok (elapsed p) /\
  arithmetic_safe e p = true.
Proof.
  intros [Hs Hf]. unfold pod_decision, arithmetic_safe, elapsed.
  apply str_in_failure_statuses in Hs. rewrite Hs.
  destruct (failure_time p) as [ft|]; [|congruence]. simpl.
  destruct (datetime_sub ft (start_time p)) as [up|] eqn:Hup; [|discriminate].
  apply datetime_sub_inv in Hup as (-> & Hk & _). simpl.
  destruct (timedelta_sub _ e) as [diff|] eqn:Hdiff; [|discriminate].
  apply new_timedelta_inv in Hdiff as [_ Hr].
  intros _. split; [reflexivity|].
  rewrite Hk, Hr. now destruct (is_aware (start_time p)).
Qed.

Lemma deviation_nonneg (p : Pod) (e : timedelta) : 0 <= deviation p e.
Proof. unfold deviation. lia. Qed.

(** ** Properties of detect_time_failure_pattern *)

(** C1, as amended. On every well-formed input where the duration
    arithmetic is safe (each instance behind the gates has timestamps of
    one kind and an uptime whose distance to the expected failure time is
    a representable duration), [detect_time_failure_pattern] returns, and
    what it returns is a sub-sequence of the input, made of the input's own
    records in their original order, whose members are exactly the
    instances that pass both gates and have deviation at most the
    tolerance, each as often as the input has it; the empty input yields
    the empty output. *)
Theorem detect_is_order_preserving_filter (pods : list Pod) (e t : timedelta)
    (c : Clock) :
  forallb wf_pod pods = true ->
  forallb (arithmetic_safe e) pods = true ->
  exists r,
    detect_time_failure_pattern pods e t c = (Ok r, c) /\
    r = List.filter (matches e t) pods /\
    sublist r pods /\
    (forall p, In p r <-> In p pods /\ passes_gates p /\ deviation p e <= t) /\
    (pods = [] -> r = []).
Proof.
  intros Hwf Hsafe. exists (List.filter (matches e t) pods).
  split; [now apply detect_safe|].
  split; [reflexivity|].
  split; [apply filter_sublist|].
  split.
  - intros p. rewrite filter_In, matches_spec. tauto.
  - now intros ->.
Qed.

(** C2, as amended. For every instance of the input that passes both
    gates (terminal-failure status, failure time present), once the call
    returns: the instance's uptime is [failureTime - startTime], and the
    instance is in the result if and only if
    [|uptime - expectedFailureTime| <= tolerance]; a deviation exactly
    equal to the tolerance is a match. *)
Theorem gated_instance_matches_iff_within_tolerance (pods : list Pod)
    (e t : timedelta) (c : Clock) (r : list Pod) (p : Pod) :
  outcome (detect_time_failure_pattern pods e t) c = Ok r ->
  In p pods ->
  passes_gates p ->
  exists up,
    outcome (uptime p) c = Ok up /\
    (In p r <-> Z.abs (up - e) <= t) /\
    (Z.abs (up - e) = t -> In p r).
Proof.
  intros Hr Hin Hg.
  pose proof (detect_returns_filter _ _ _ _ _ Hr) as ->.
  pose proof (detect_loop_returns _ _ _ _ _ _ Hr) as Hall.
  rewrite List.Forall_forall in Hall. specialize (Hall p Hin).
  destruct (pod_decision_gated_inv _ _ _ _ Hg Hall) as [Hup _].
  exists (elapsed p).
  assert (Hiff : In p (List.filter (matches e t) pods) <->
                 Z.abs (elapsed p - e) <= t).
  { rewrite filter_In, matches_spec. unfold deviation. tauto. }
  split; [|split].
  - unfold outcome. rewrite uptime_gated; [exact Hup|].
    destruct Hg as [Hs Hf].
    apply andb_true_iff. split;
      [now apply str_in_failure_statuses | now apply truthy_spec].
  - exact Hiff.
  - intros Heq. apply Hiff. lia.
Qed.

(** C3. An instance whose status is none of Failed, Error and
    CrashLoopBackOff is in no result of [detect_time_failure_pattern],
    whatever its timestamps and the duration parameters; the call behaves
    as if the instance were not in the input at all. *)
Theorem status_gate (e t : timedelta) (c : Clock) (p : Pod) :
  ~ terminal_failure (status p) ->
  (forall pods r,
     outcome (detect_time_failure_pattern pods e t) c = Ok r -> ~ In p r) /\
  (forall before after,
     detect_time_failure_pattern (before ++ p :: after) e t c =
     detect_time_failure_pattern (before ++ after) e t c).
Proof.
  intros Hs. split.
  - intros pods r Hr Hin.
    rewrite (detect_returns_filter _ _ _ _ _ Hr) in Hin.
    apply filter_In in Hin as [_ Hm].
    apply matches_spec in Hm as [[Ht _] _]. contradiction.
  - intros before after. apply detect_loop_skip, pod_decision_ungated.
    intros [Ht _]. contradiction.
Qed.

(** C4. An instance with a terminal-failure status but no failure time is
    in no result of [detect_time_failure_pattern]; the call behaves as if
    the instance were not in the input at all. *)
Theorem missing_failure_time_gate (e t : timedelta) (c : Clock) (p : Pod) :
  terminal_failure (status p) ->
  failure_time p = None ->
  (forall pods r,
     outcome (detect_time_failure_pattern pods e t) c = Ok r -> ~ In p r) /\
  (forall before after,
     detect_time_failure_pattern (before ++ p :: after) e t c =
     detect_time_failure_pattern (before ++ after) e t c).
Proof.
  intros _ Hf. split.
  - intros pods r Hr Hin.
    rewrite (detect_returns_filter _ _ _ _ _ Hr) in Hin.
    apply filter_In in Hin as [_ Hm].
    apply matches_spec in Hm as [[_ Hp] _]. contradiction.
  - intros before after. apply detect_loop_skip, pod_decision_ungated.
    intros [_ Hp]. contradiction.
Qed.

(** C5. The derived uptime: [failureTime - startTime] when the status is a
    terminal-failure state and the failure time is present; the current
    wall-clock time minus [startTime] (one read of the clock) when that
    condition fails and the status is Running; the zero duration in every
    other case, in particular for a terminal-failure status without a
    failure time. *)
Theorem uptime_cases (p : Pod) (c : Clock) :
  (forall ft,
     terminal_failure (status p) -> failure_time p = Some ft ->
     uptime p c = (datetime_sub ft (start_time p), c)) /\
  (~ (terminal_failure (status p) /\ failure_time p <> None) ->
   status p = "Running" ->
   uptime p c =
     (datetime_sub (naive (clock_ticks c (clock_reads c))) (start_time p),
      mkClock (clock_ticks c) (S (clock_reads c)))) /\
  (~ (terminal_failure (status p) /\ failure_time p <> None) ->
   status p <> "Running" ->
   uptime p c = (Ok timedelta_zero, c)) /\
  (terminal_failure (status p) -> failure_time p = None ->
   uptime p c = (Ok timedelta_zero, c)).
Proof.
  assert (Hfirst : ~ (terminal_failure (status p) /\ failure_time p <> None) ->
                   truthy (failure_time p) && str_in (status p) FAILURE_STATUSES
                   = false).
  { intros Hn.
    destruct (truthy (failure_time p) && str_in (status p) FAILURE_STATUSES)
      eqn:H; [|reflexivity].
    exfalso. apply Hn. apply andb_true_iff in H as [Hf Hs].
    split; [now apply str_in_failure_statuses | now apply truthy_spec]. }
  split; [|split; [|split]].
  - intros ft Hs Hf. apply str_in_failure_statuses in Hs.
    unfold uptime. rewrite Hf, Hs. reflexivity.
  - intros Hn Hrun. unfold uptime. rewrite (Hfirst Hn), Hrun. reflexivity.
  - intros Hn Hrun. unfold uptime. rewrite (Hfirst Hn).
    apply String.eqb_neq in Hrun. rewrite Hrun. reflexivity.
  - intros Hs Hf. unfold uptime. rewrite Hf. simpl.
    destruct Hs as [-> | [-> | ->]]; reflexivity.
Qed.

Lemma detect_loop_outcome_clock (pods : list Pod) (e t : timedelta)
    (acc : list Pod) (c1 c2 : Clock) :
  fst (detect_loop pods e t acc c1) = fst (detect_loop pods e t acc c2).
Proof.
  revert acc. induction pods as [|p rest IH]; intros acc; [reflexivity|].
  rewrite !detect_loop_cons.
  destruct (pod_decision e t p) as [[|]|x]; [apply IH | apply IH | reflexivity].
Qed.

(** C6. The outcome of [detect_time_failure_pattern] does not depend on
    the wall clock: evaluated under any two clocks, the same input and
    parameters give the same outcome, and the call never reads the clock.
    Behind the gates the uptime is computed from the stored timestamps
    alone. *)
Theorem detect_independent_of_clock (pods : list Pod) (e t : timedelta)
    (c1 c2 : Clock) :
  outcome (detect_time_failure_pattern pods e t) c1 =
  outcome (detect_time_failure_pattern pods e t) c2 /\
  clock_after (detect_time_failure_pattern pods e t) c1 = c1 /\
  (forall p, passes_gates p ->
     outcome (uptime p) c1 = outcome (uptime p) c2 /\
     clock_after (uptime p) c1 = c1).
Proof.
  split; [apply detect_loop_outcome_clock|].
  split; [apply detect_loop_clock|].
  intros p [Hs Hf].
  assert (Hg : str_in (status p) FAILURE_STATUSES && truthy (failure_time p) = true).
  { apply andb_true_iff. split;
      [now apply str_in_failure_statuses | now apply truthy_spec]. }
  unfold outcome, clock_after. rewrite !(uptime_gated p _ Hg). split; reflexivity.
Qed.


(** C8, as amended. [detect_time_failure_pattern] validates nothing and
    has no error outcome of its own: on a well-formed input it returns a
    list exactly when the duration arithmetic is safe for every instance
    (timestamps of one kind and a representable [uptime -
    expectedFailureTime] behind the gates), whatever the tolerance and
    the sign of the parameters; otherwise the exception of that arithmetic
    comes out of the call. *)
Theorem detect_returns_iff_arithmetic_safe (pods : list Pod) (e t : timedelta)
    (c : Clock) :
  forallb wf_pod pods = true ->
  (forallb (arithmetic_safe e) pods = true <->
   exists r, outcome (detect_time_failure_pattern pods e t) c = Ok r).
Proof.
  intros Hwf. split.
  - intros Hsafe. exists (List.filter (matches e t) pods).
    unfold outcome. now rewrite detect_safe.
  - intros [r Hr]. apply forallb_forall. intros p Hin.
    pose proof (detect_loop_returns _ _ _ _ _ _ Hr) as Hall.
    rewrite List.Forall_forall in Hall. specialize (Hall p Hin).
    destruct (str_in (status p) FAILURE_STATUSES) eqn:Hs.
    + destruct (failure_time p) as [ft|] eqn:Hf.
      * eapply pod_decision_gated_inv; [|exact Hall].
        split; [now apply str_in_failure_statuses | congruence].
      * unfold arithmetic_safe. now rewrite Hs, Hf.
    + unfold arithmetic_safe. now rewrite Hs.
Qed.

(** C9. [detect_time_failure_pattern] is idempotent: run again on a list
    it returned, with the same parameters and under any clock, it returns
    that list unchanged. *)
Theorem detect_idempotent (pods : list Pod) (e t : timedelta) (c c' : Clock)
    (r : list Pod) :
  outcome (detect_time_failure_pattern pods e t) c = Ok r ->
  outcome (detect_time_failure_pattern r e t) c' = Ok r.
Proof.
  intros Hr.
  pose proof (detect_returns_filter _ _ _ _ _ Hr) as ->.
  pose proof (detect_loop_returns _ _ _ _ _ _ Hr) as Hall.
  unfold outcome, detect_time_failure_pattern.
  rewrite detect_loop_decided.
  - simpl. now rewrite filter_idempotent.
  - rewrite List.Forall_forall in *. intros p Hin.
    apply filter_In in Hin as [Hin _]. now apply Hall.
Qed.

(** C10, as amended. With a strictly negative tolerance nothing matches,
    because a deviation is an absolute value: whenever the call returns,
    it returns the empty list, and it does return on every well-formed
    input for which the duration arithmetic is safe. *)
Theorem negative_tolerance_matches_nothing (pods : list Pod) (e t : timedelta)
    (c : Clock) :
  t < 0 ->
  (forall r, outcome (detect_time_failure_pattern pods e t) c = Ok r -> r = []) /\
  (forallb wf_pod pods = true ->
   forallb (arithmetic_safe e) pods = true ->
   detect_time_failure_pattern pods e t c = (Ok [], c)).
Proof.
  intros Ht.
  assert (Hnone : List.filter (matches e t) pods = []).
  { induction pods as [|p rest IH]; [reflexivity|]. simpl.
    destruct (matches e t p) eqn:Hm; [|exact IH].
    apply matches_spec in Hm as [_ Hd].
    pose proof (deviation_nonneg p e). lia. }
  split.
  - intros r Hr. now rewrite (detect_returns_filter _ _ _ _ _ Hr).
  - intros Hwf Hsafe. now rewrite detect_safe, Hnone.
Qed.

(** ** The test-suite, evaluated *)

Import Scenarios.

Example test_detect_pods_failing_at_10_minutes :
  run pods_10_minutes = Ok ["pod-1"; "pod-2"; "pod-3"].
Proof. reflexivity. Qed.

Example test_ignore_pods_failing_at_different_times :
  run pods_different_times = Ok [].
Proof. reflexivity. Qed.

Example test_ignore_running_pods : run pods_running = Ok ["pod-3"].
Proof. reflexivity. Qed.

Example test_custom_failure_time_and_tolerance :
  names (outcome (detect_time_failure_pattern pods_custom (minutes 5) (seconds 15))
           clock0) = Ok ["pod-1"; "pod-2"].
Proof. reflexivity. Qed.

Example test_empty_pod_list : run [] = Ok [].
Proof. reflexivity. Qed.

Example test_pods_without_failure_time :
  run pods_without_failure_time = Ok ["pod-2"].
Proof. reflexivity. Qed.

Example tolerance_boundary_is_inclusive :
  run [on_boundary; past_boundary] = Ok ["pod-7"].
Proof. reflexivity. Qed.

(** ** Timestamps in a zone with daylight saving time *)

(** Under one [ZoneInfo] object the uptime is measured on the wall clock:
    seventy minutes across the change of 30 March, so the pod is not
    returned under the default parameters. *)
Example uptime_across_dst_one_object :
  outcome (uptime Zones.across_dst) clock0 = Ok (minutes 70) /\
  run [Zones.across_dst] = Ok [].
Proof. split; reflexivity. Qed.

(** Under two objects for the same zone the uptime is measured in UTC:
    ten minutes, and the pod is returned. *)
Example uptime_across_dst_two_objects :
  outcome (uptime Zones.across_dst_two_objects) clock0 = Ok (minutes 10) /\
  run [Zones.across_dst_two_objects] = Ok ["pod-11"].
Proof. split; reflexivity. Qed.

(** In the repeated hour the fold is not looked at under one object: the
    uptime is twenty minutes, although the failure is the earlier instant. *)
Example uptime_in_repeated_hour :
  outcome (uptime Zones.in_repeated_hour) clock0 = Ok (minutes 20) /\
  instant (mkDatetime (Zones.dst_end - 30 * US_PER_MINUTE) false (Some Zones.paris))
  - instant (mkDatetime (Zones.dst_end - 50 * US_PER_MINUTE) true (Some Zones.paris))
  = - minutes 40.
Proof. split; reflexivity. Qed.

(** With the expected failure time at [timedelta.max], an uptime of one
    day on the wall clock is still in range and the call returns, while an
    uptime of 23 hours on the wall clock is not and the call raises. *)
Example wall_clock_decides_the_overflow :
  outcome (detect_time_failure_pattern [Zones.noon_to_noon] TIMEDELTA_MAX
             default_tolerance) clock0 = Ok [] /\
  outcome (detect_time_failure_pattern [Zones.noon_to_eleven] TIMEDELTA_MAX
             (-1)) clock0 = Raise OverflowError.
Proof. split; reflexivity. Qed.

(** ** Instances of the properties, and inputs on which the unamended
    statements fail *)

Lemma detect_is_order_preserving_filter_witness :
  exists r,
    detect_time_failure_pattern pods_running default_expected_failure_time
      default_tolerance clock0 = (Ok r, clock0) /\
    r = List.filter (matches default_expected_failure_time default_tolerance)
          pods_running /\
    sublist r pods_running /\
    (forall p, In p r <->
       In p pods_running /\ passes_gates p /\
       deviation p default_expected_failure_time <= default_tolerance) /\
    (pods_running = [] -> r = []).
Proof. apply detect_is_order_preserving_filter; reflexivity. Defined.

(** C1 fails as stated: with the expected failure time at [timedelta.max]
    the first pod of the first test makes [uptime - expected_failure_time]
    overflow, and the call returns no list at all. *)
Lemma detect_overflow_counterexample :
  forallb wf_pod pods_10_minutes = true /\
  in_timedelta_range TIMEDELTA_MAX = true /\
  outcome (detect_time_failure_pattern pods_10_minutes TIMEDELTA_MAX
             default_tolerance) clock0 = Raise OverflowError /\
  ~ (exists r, outcome (detect_time_failure_pattern pods_10_minutes TIMEDELTA_MAX
                          default_tolerance) clock0 = Ok r).
Proof.
  repeat split; try reflexivity. intros [r Hr]. vm_compute in Hr. discriminate Hr.
Qed.

Lemma gated_instance_matches_iff_within_tolerance_witness :
  exists up,
    outcome (uptime failed_at_10_minutes) clock0 = Ok up /\
    (In failed_at_10_minutes [failed_at_10_minutes] <->
     Z.abs (up - default_expected_failure_time) <= default_tolerance) /\
    (Z.abs (up - default_expected_failure_time) = default_tolerance ->
     In failed_at_10_minutes [failed_at_10_minutes]).
Proof.
  apply (gated_instance_matches_iff_within_tolerance pods_without_failure_time
           default_expected_failure_time default_tolerance clock0
           [failed_at_10_minutes] failed_at_10_minutes).
  - reflexivity.
  - right. left. reflexivity.
  - split; [right; left; reflexivity | discriminate].
Defined.

(** C2 fails as stated: a Running pod started ten minutes before the
    clock is read has an uptime of exactly the default expected failure
    time, so its deviation is within the default tolerance, yet it is not
    returned; likewise a Failed pod without failure time, whose uptime is
    zero, when zero is the expected failure time. *)
Lemma ungated_within_tolerance_counterexample :
  (In running_10_minutes [running_10_minutes] /\
   outcome (uptime running_10_minutes) clock0 = Ok (minutes 10) /\
   Z.abs (minutes 10 - default_expected_failure_time) <= default_tolerance /\
   outcome (detect_time_failure_pattern [running_10_minutes]
              default_expected_failure_time default_tolerance) clock0 = Ok []) /\
  (In failed_without_time [failed_without_time] /\
   outcome (uptime failed_without_time) clock0 = Ok 0 /\
   Z.abs (0 - 0) <= 0 /\
   outcome (detect_time_failure_pattern [failed_without_time] 0 0) clock0 = Ok []).
Proof.
  repeat split; try reflexivity; try (left; reflexivity); vm_compute; discriminate.
Qed.

Lemma status_gate_witness :
  ~ terminal_failure (status pending) /\
  ~ In pending [failed_at_10_minutes] /\
  detect_time_failure_pattern ([failed_without_time] ++ pending :: [failed_at_10_minutes])
    default_expected_failure_time default_tolerance clock0 =
  detect_time_failure_pattern ([failed_without_time] ++ [failed_at_10_minutes])
    default_expected_failure_time default_tolerance clock0.
Proof.
  assert (H : ~ terminal_failure (status pending))
    by (intros [H | [H | H]]; discriminate H).
  destruct (status_gate default_expected_failure_time default_tolerance clock0
              pending H) as [Hout Hskip].
  split; [exact H|]. split.
  - apply (Hout [pending; failed_at_10_minutes]). reflexivity.
  - apply Hskip.
Defined.

Lemma missing_failure_time_gate_witness :
  ~ In failed_without_time [failed_at_10_minutes] /\
  detect_time_failure_pattern ([] ++ failed_without_time :: [failed_at_10_minutes])
    default_expected_failure_time default_tolerance clock0 =
  detect_time_failure_pattern ([] ++ [failed_at_10_minutes])
    default_expected_failure_time default_tolerance clock0.
Proof.
  destruct (missing_failure_time_gate default_expected_failure_time
              default_tolerance clock0 failed_without_time
              (or_introl eq_refl) eq_refl) as [Hout Hskip].
  split.
  - apply (Hout pods_without_failure_time). reflexivity.
  - apply Hskip.
Defined.

Lemma uptime_cases_witness :
  uptime failed_at_10_minutes clock0 = (Ok (minutes 10), clock0) /\
  uptime running_10_minutes clock0 =
    (Ok (minutes 10), mkClock (clock_ticks clock0) 1) /\
  uptime pending clock0 = (Ok 0, clock0) /\
  uptime failed_without_time clock0 = (Ok 0, clock0).
Proof.
  split; [|split; [|split]].
  - apply (proj1 (uptime_cases failed_at_10_minutes clock0) (ago 0));
      [right; left; reflexivity | reflexivity].
  - apply (proj1 (proj2 (uptime_cases running_10_minutes clock0)));
      [intros [_ H]; apply H; reflexivity | reflexivity].
  - apply (proj1 (proj2 (proj2 (uptime_cases pending clock0))));
      [intros [[H | [H | H]] _]; discriminate H | discriminate].
  - apply (proj2 (proj2 (proj2 (uptime_cases failed_without_time clock0))));
      [left; reflexivity | reflexivity].
Defined.

Lemma detect_independent_of_clock_witness :
  outcome (detect_time_failure_pattern pods_running default_expected_failure_time
             default_tolerance) clock0 =
  outcome (detect_time_failure_pattern pods_running default_expected_failure_time
             default_tolerance) (mkClock (fun _ => DATETIME_MAX) 7).
Proof.
  exact (proj1 (detect_independent_of_clock pods_running
                  default_expected_failure_time default_tolerance clock0
                  (mkClock (fun _ => DATETIME_MAX) 7))).
Defined.


Lemma detect_returns_iff_arithmetic_safe_witness :
  exists r,
    outcome (detect_time_failure_pattern pods_custom (- minutes 5) (- seconds 15))
      clock0 = Ok r.
Proof.
  apply (proj1 (detect_returns_iff_arithmetic_safe pods_custom (- minutes 5)
                  (- seconds 15) clock0 eq_refl)).
  reflexivity.
Defined.

(** C8 fails as stated: well-typed inputs on which the call raises. With
    the expected failure time at [timedelta.max], a pod that failed after
    ten minutes raises [OverflowError]; with the default parameters, a pod
    whose start time is naive and whose failure time is aware raises
    [TypeError]. *)
Lemma detect_raises_counterexample :
  (wf_pod failed_at_10_minutes = true /\
   in_timedelta_range TIMEDELTA_MAX = true /\
   outcome (detect_time_failure_pattern [failed_at_10_minutes] TIMEDELTA_MAX
              default_tolerance) clock0 = Raise OverflowError) /\
  (wf_pod mixed_kinds = true /\
   outcome (detect_time_failure_pattern [mixed_kinds]
              default_expected_failure_time default_tolerance) clock0
   = Raise TypeError).
Proof. repeat split; reflexivity. Qed.

Lemma detect_idempotent_witness :
  outcome (detect_time_failure_pattern [failed_at_10_minutes]
             default_expected_failure_time default_tolerance) clock0
  = Ok [failed_at_10_minutes].
Proof.
  apply (detect_idempotent pods_without_failure_time
           default_expected_failure_time default_tolerance clock0 clock0).
  reflexivity.
Defined.

Lemma negative_tolerance_matches_nothing_witness :
  -1 < 0 /\
  detect_time_failure_pattern pods_10_minutes default_expected_failure_time (-1)
    clock0 = (Ok [], clock0).
Proof.
  split; [reflexivity|].
  apply (negative_tolerance_matches_nothing pods_10_minutes
           default_expected_failure_time (-1) clock0); reflexivity.
Defined.

(** C10 fails as stated: with a negative tolerance and the expected
    failure time at [timedelta.max], the pods of the first test do not
    give the empty list: the call raises [OverflowError]. *)
Lemma negative_tolerance_counterexample :
  - seconds 30 < 0 /\
  forallb wf_pod pods_10_minutes = true /\
  in_timedelta_range TIMEDELTA_MAX = true /\
  outcome (detect_time_failure_pattern pods_10_minutes TIMEDELTA_MAX (- seconds 30))
    clock0 = Raise OverflowError /\
  outcome (detect_time_failure_pattern pods_10_minutes TIMEDELTA_MAX (- seconds 30))
    clock0 <> Ok [].
Proof. repeat split; try reflexivity; vm_compute; discriminate. Qed.

(** ** How calls compose *)

Lemma outcome_detect_filter (pods : list Pod) (e t : timedelta) (c : Clock) :
  Forall (fun p => pod_decision e t p = Ok (matches e t p)) pods ->
  outcome (detect_time_failure_pattern pods e t) c =
  Ok (List.filter (matches e t) pods).
Proof.
  intros H. unfold outcome, detect_time_failure_pattern.
  now rewrite detect_loop_decided.
Qed.

(** What the loop raises does not depend on what it has collected. *)
Lemma detect_loop_acc (pods : list Pod) (e t : timedelta) (acc : list Pod)
    (c : Clock) :
  fst (detect_loop pods e t acc c) =
  result_map (app acc) (fst (detect_loop pods e t [] c)).
Proof.
  revert acc. induction pods as [|p rest IH]; intros acc.
  - simpl. now rewrite app_nil_r.
  - rewrite !detect_loop_cons.
    destruct (pod_decision e t p) as [[|]|x]; [|apply IH|reflexivity].
    rewrite (IH (acc ++ [p])), (IH ([] ++ [p])).
    destruct (fst (detect_loop rest e t [] c)) as [r|x]; simpl; [|reflexivity].
    now rewrite <- app_assoc.
Qed.

Lemma detect_loop_app (l1 l2 : list Pod) (e t : timedelta) (acc : list Pod)
    (c : Clock) :
  fst (detect_loop (l1 ++ l2) e t acc c) =
  result_bind (fst (detect_loop l1 e t acc c))
              (fun r1 => fst (detect_loop l2 e t r1 c)).
Proof.
  revert acc. induction l1 as [|p rest IH]; intros acc; [reflexivity|].
  rewrite <- app_comm_cons, !detect_loop_cons.
  destruct (pod_decision e t p) as [[|]|x]; [apply IH | apply IH | reflexivity].
Qed.

(** X1. The call distributes over concatenation of its input: on
    [l1 ++ l2] it returns the result for [l1] followed by the result for
    [l2]; when the call on [l1] raises, that exception comes out, and
    otherwise the one of the call on [l2]. *)
Theorem detect_app (l1 l2 : list Pod) (e t : timedelta) (c : Clock) :
  outcome (detect_time_failure_pattern (l1 ++ l2) e t) c =
  (r1 <-r outcome (detect_time_failure_pattern l1 e t) c ;;
   r2 <-r outcome (detect_time_failure_pattern l2 e t) c ;;
   Ok (r1 ++ r2)).
Proof.
  unfold outcome, detect_time_failure_pattern.
  rewrite detect_loop_app.
  destruct (fst (detect_loop l1 e t [] c)) as [r1|x]; simpl; [|reflexivity].
  rewrite detect_loop_acc.
  now destruct (fst (detect_loop l2 e t [] c)).
Qed.

(** Whether a decision is reached, and what is raised otherwise, does not
    depend on the tolerance. *)
Lemma pod_decision_tolerance (e t t' : timedelta) (p : Pod) :
  match pod_decision e t p with
  | Ok _ => pod_decision e t' p = Ok (matches e t' p)
  | Raise x => pod_decision e t' p = Raise x
  end.
Proof.
  destruct (pod_decision e t p) as [b|x] eqn:Hd.
  - enough (exists b', pod_decision e t' p = Ok b') as [b' Hb'].
    { now rewrite Hb', (pod_decision_inv _ _ _ _ Hb'). }
    revert Hd. unfold pod_decision.
    destruct (str_in (status p) FAILURE_STATUSES && truthy (failure_time p));
      [|eauto].
    destruct (optional_datetime_sub _ _); simpl; [|discriminate].
    destruct (timedelta_sub _ e); simpl; [|discriminate].
    destruct (timedelta_abs _); simpl; [eauto|discriminate].
  - revert Hd. unfold pod_decision.
    destruct (str_in (status p) FAILURE_STATUSES && truthy (failure_time p));
      [|discriminate].
    destruct (optional_datetime_sub _ _); simpl; [|auto].
    destruct (timedelta_sub _ e); simpl; [|auto].
    destruct (timedelta_abs _); simpl; [discriminate|auto].
Qed.

Lemma detect_loop_raise_tolerance (pods : list Pod) (e t t' : timedelta)
    (acc acc' : list Pod) (c : Clock) (x : exn) :
  fst (detect_loop pods e t acc c) = Raise x ->
  fst (detect_loop pods e t' acc' c) = Raise x.
Proof.
  revert acc acc'. induction pods as [|p rest IH]; intros acc acc';
    [discriminate|].
  rewrite !detect_loop_cons.
  pose proof (pod_decision_tolerance e t t' p) as Ht.
  destruct (pod_decision e t p) as [b|y]; rewrite Ht.
  - destruct b, (matches e t' p); apply IH.
  - auto.
Qed.

Lemma filter_sublist_mono {A} (f g : A -> bool) (l : list A) :
  (forall x, f x = true -> g x = true) ->
  sublist (List.filter f l) (List.filter g l).
Proof.
  intros Hfg. induction l as [|x l IH]; simpl; [constructor|].
  destruct (f x) eqn:Hf.
  - rewrite (Hfg x Hf). now apply sublist_skip.
  - destruct (g x); [now apply sublist_cons | exact IH].
Qed.

(** X2. Widening the tolerance only adds matches: for [t <= t'] every pod
    returned under [t] is returned under [t'], in the same order. The
    tolerance has no part in whether the call raises, nor in what it
    raises. *)
Theorem detect_tolerance_monotone (pods : list Pod) (e t t' : timedelta)
    (c : Clock) :
  t <= t' ->
  (forall r,
     outcome (detect_time_failure_pattern pods e t) c = Ok r ->
     exists r',
       outcome (detect_time_failure_pattern pods e t') c = Ok r' /\
       sublist r r') /\
  (forall x,
     outcome (detect_time_failure_pattern pods e t) c = Raise x ->
     outcome (detect_time_failure_pattern pods e t') c = Raise x).
Proof.
  intros Hle. split.
  - intros r Hr.
    pose proof (detect_returns_filter _ _ _ _ _ Hr) as ->.
    pose proof (detect_loop_returns _ _ _ _ _ _ Hr) as Hall.
    exists (List.filter (matches e t') pods). split.
    + apply outcome_detect_filter.
      rewrite List.Forall_forall in *. intros p Hin.
      pose proof (pod_decision_tolerance e t t' p) as Ht.
      now rewrite (Hall p Hin) in Ht.
    + apply filter_sublist_mono. intros p Hm.
      apply matches_spec in Hm as [Hg Hd]. apply matches_spec.
      split; [exact Hg | lia].
  - intros x. apply detect_loop_raise_tolerance.
Qed.

(** X3. The first pod, in input order, for which the duration arithmetic
    is not safe decides the exception: [TypeError] when its failure time
    and start time are of different kinds, [OverflowError] otherwise. The
    pods after it are not looked at, and the tolerance plays no part. *)
Theorem detect_raises_at_first_unsafe_pod (before after : list Pod) (p : Pod)
    (e t : timedelta) (c : Clock) :
  forallb wf_pod before = true ->
  forallb (arithmetic_safe e) before = true ->
  wf_pod p = true ->
  arithmetic_safe e p = false ->
  exists ft,
    failure_time p = Some ft /\
    outcome (detect_time_failure_pattern (before ++ p :: after) e t) c =
    Raise (if Bool.eqb (is_aware ft) (is_aware (start_time p))
           then OverflowError else TypeError).
Proof.
  intros Hwf Hsafe Hwfp Hp.
  unfold arithmetic_safe in Hp.
  destruct (str_in (status p) FAILURE_STATUSES) eqn:Hs; [|discriminate].
  destruct (failure_time p) as [ft|] eqn:Hf; [|discriminate].
  exists ft. split; [reflexivity|].
  unfold outcome, detect_time_failure_pattern.
  rewrite detect_loop_app, detect_loop_decided.
  2:{ apply List.Forall_forall. intros q Hq.
      rewrite forallb_forall in Hwf, Hsafe.
      apply pod_decision_safe; auto. }
  cbn [fst result_bind]. rewrite detect_loop_cons.
  assert (Hd : pod_decision e t p =
               Raise (if Bool.eqb (is_aware ft) (is_aware (start_time p))
                      then OverflowError else TypeError)).
  { unfold pod_decision. rewrite Hs, Hf. simpl.
    unfold wf_pod in Hwfp. rewrite Hf in Hwfp.
    apply andb_true_iff in Hwfp as [Hst Hft].
    destruct (Bool.eqb (is_aware ft) (is_aware (start_time p))) eqn:Hk.
    - apply eqb_prop in Hk.
      rewrite (datetime_sub_ok _ _ Hft Hst Hk). simpl.
      simpl in Hp. unfold elapsed in Hp. rewrite Hf in Hp.
      unfold timedelta_sub, new_timedelta. now rewrite Hp.
    - apply eqb_false_iff in Hk. now rewrite datetime_sub_mixed. }
  now rewrite Hd.
Qed.

Lemma filter_Permutation_bool {A} (f : A -> bool) (l l' : list A) :
  Permutation l l' -> Permutation (List.filter f l) (List.filter f l').
Proof.
  induction 1 as [|x l l' _ IH|x y l|l l' l'' _ IH1 _ IH2]; simpl.
  - constructor.
  - destruct (f x); [now constructor | exact IH].
  - destruct (f x), (f y); try reflexivity. apply perm_swap.
  - now transitivity (List.filter f l').
Qed.

(** X4. The order of the input only decides the order of the output: on
    a rearranged input the call returns the same pods, rearranged. *)
Theorem detect_permutation (pods pods' : list Pod) (e t : timedelta)
    (c : Clock) (r : list Pod) :
  Permutation pods pods' ->
  outcome (detect_time_failure_pattern pods e t) c = Ok r ->
  exists r',
    outcome (detect_time_failure_pattern pods' e t) c = Ok r' /\
    Permutation r r'.
Proof.
  intros Hperm Hr.
  pose proof (detect_returns_filter _ _ _ _ _ Hr) as ->.
  pose proof (detect_loop_returns _ _ _ _ _ _ Hr) as Hall.
  exists (List.filter (matches e t) pods'). split.
  - apply outcome_detect_filter.
    rewrite List.Forall_forall in *. intros p Hin.
    apply Hall. apply Permutation_in with pods'; [now symmetry | exact Hin].
  - now apply filter_Permutation_bool.
Qed.

(** ** What the loop looks at *)

Lemma detect_loop_map (g : Pod -> Pod) (pods : list Pod) (e t : timedelta)
    (acc : list Pod) (c : Clock) :
  Forall (fun p => pod_decision e t (g p) = pod_decision e t p) pods ->
  fst (detect_loop (map g pods) e t (map g acc) c) =
  result_map (map g) (fst (detect_loop pods e t acc c)).
Proof.
  intros Hg. revert acc. induction Hg as [|p rest Hp _ IH]; intros acc;
    [reflexivity|].
  cbn [map]. rewrite !detect_loop_cons, Hp.
  destruct (pod_decision e t p) as [[|]|x]; [|apply IH|reflexivity].
  rewrite <- IH, map_app. reflexivity.
Qed.

Lemma same_tzinfo_shift (delta : Z) (a b : datetime) :
  same_tzinfo (shift_datetime delta a) (shift_datetime delta b) =
  same_tzinfo a b.
Proof. reflexivity. Qed.

Lemma datetime_sub_shift (delta : Z) (a b : datetime) :
  same_tzinfo a b = true ->
  datetime_sub (shift_datetime delta a) (shift_datetime delta b) =
  datetime_sub a b.
Proof.
  intros Hsame.
  rewrite !datetime_sub_same_tzinfo by (now rewrite ?same_tzinfo_shift).
  unfold shift_datetime. simpl. f_equal. lia.
Qed.

Lemma pod_decision_shift (delta : Z) (e t : timedelta) (p : Pod) :
  one_wall_clock p = true ->
  pod_decision e t (shift_pod delta p) = pod_decision e t p.
Proof.
  unfold one_wall_clock, pod_decision, shift_pod. simpl.
  destruct (failure_time p) as [ft|]; simpl; [|reflexivity].
  intros Hsame. now rewrite datetime_sub_shift.
Qed.

(** X5. For pods whose two timestamps are measured on one wall clock (both
    naive, or both with the same tzinfo object), only the distance between
    the two counts, not where they lie in time: moving every timestamp of
    the input by the same amount moves the pods of the result by that
    amount and changes nothing else, exceptions included. *)
Theorem detect_shift_invariant (delta : Z) (pods : list Pod) (e t : timedelta)
    (c : Clock) :
  forallb one_wall_clock pods = true ->
  outcome (detect_time_failure_pattern (map (shift_pod delta) pods) e t) c =
  result_map (map (shift_pod delta))
             (outcome (detect_time_failure_pattern pods e t) c).
Proof.
  intros Hwall. unfold outcome, detect_time_failure_pattern.
  apply (detect_loop_map (shift_pod delta) pods e t []).
  apply List.Forall_forall. intros p Hin.
  rewrite forallb_forall in Hwall. now apply pod_decision_shift, Hwall.
Qed.

(** X6. The name of a pod is never looked at: under any renaming of the
    pods the call keeps the pods at the same positions, and raises the
    same exception if it raises. *)
Theorem detect_ignores_names (f : string -> string) (pods : list Pod)
    (e t : timedelta) (c : Clock) :
  outcome (detect_time_failure_pattern (map (rename_pod f) pods) e t) c =
  result_map (map (rename_pod f))
             (outcome (detect_time_failure_pattern pods e t) c).
Proof.
  unfold outcome, detect_time_failure_pattern.
  apply (detect_loop_map (rename_pod f) pods e t []).
  apply List.Forall_forall. intros p _. reflexivity.
Qed.

(** X7. The tolerance window: when the call returns, the pods of the
    result are exactly the pods of the input behind both gates that failed
    no earlier than [expected_failure_time - tolerance] and no later than
    [expected_failure_time + tolerance] after their start, both ends
    included. *)
Theorem detect_window (pods : list Pod) (e t : timedelta) (c : Clock)
    (r : list Pod) :
  outcome (detect_time_failure_pattern pods e t) c = Ok r ->
  forall p,
    In p r <->
    In p pods /\ passes_gates p /\ e - t <= elapsed p <= e + t.
Proof.
  intros Hr p.
  rewrite (detect_returns_filter _ _ _ _ _ Hr), filter_In, matches_spec.
  unfold deviation. rewrite Z.abs_le. intuition lia.
Qed.

(** ** Exceptions of uptime *)

Lemma wf_naive_tick (c : Clock) :
  wf_clock c = true -> wf_datetime (naive (clock_ticks c (clock_reads c))) = true.
Proof.
  unfold wf_clock, wf_datetime. simpl. intros H. now rewrite H.
Qed.

Lemma uptime_running (p : Pod) (c : Clock) :
  status p = "Running" ->
  uptime p c =
  (datetime_sub (naive (clock_ticks c (clock_reads c))) (start_time p),
   mkClock (clock_ticks c) (S (clock_reads c))).
Proof.
  intros Hrun. unfold uptime. rewrite Hrun. simpl.
  now rewrite andb_false_r.
Qed.

(** X8. On well-formed values [uptime] raises nothing but [TypeError], and
    raises it in exactly two situations: the pod is behind both gates and
    its failure time and start time are of different kinds, or the pod is
    Running and its start time is timezone-aware (the clock's reading is
    naive). *)
Theorem uptime_raises_iff (p : Pod) (c : Clock) :
  wf_pod p = true ->
  wf_clock c = true ->
  (forall x, outcome (uptime p) c = Raise x -> x = TypeError) /\
  (outcome (uptime p) c = Raise TypeError <->
   (passes_gates p /\
    exists ft, failure_time p = Some ft /\
               is_aware ft <> is_aware (start_time p)) \/
   (status p = "Running" /\ is_aware (start_time p) = true)).
Proof.
  intros Hwf Hc. pose proof (wf_naive_tick c Hc) as Hnow.
  unfold wf_pod in Hwf. apply andb_true_iff in Hwf as [Hst Hft].
  destruct (str_in (status p) FAILURE_STATUSES && truthy (failure_time p))
    eqn:Hg.
  - assert (Hgates : passes_gates p).
    { apply andb_true_iff in Hg as [Hs Hf].
      split; [now apply str_in_failure_statuses | now apply truthy_spec]. }
    assert (Hnr : status p <> "Running").
    { intros Hrun. rewrite Hrun in Hg. discriminate Hg. }
    unfold outcome. rewrite (uptime_gated p c Hg). simpl.
    destruct (failure_time p) as [ft|] eqn:Hf;
      [|now rewrite andb_false_r in Hg].
    simpl. destruct (Bool.bool_dec (is_aware ft) (is_aware (start_time p)))
      as [Hk | Hk].
    + rewrite (datetime_sub_ok _ _ Hft Hst Hk). split; [discriminate|].
      split; [discriminate|].
      intros [(_ & ft' & [= <-] & Hne) | [Hrun _]]; contradiction.
    + rewrite (datetime_sub_mixed _ _ Hk). split; [now intros x [= <-]|].
      split; [|reflexivity]. intros _. left. split; [exact Hgates|].
      exists ft. split; [reflexivity | exact Hk].
  - assert (Hng : ~ passes_gates p).
    { intros [Hs Hf]. apply str_in_failure_statuses in Hs.
      apply truthy_spec in Hf. now rewrite Hs, Hf in Hg. }
    destruct (String.eqb_spec (status p) "Running") as [Hrun | Hnr].
    + unfold outcome. rewrite (uptime_running p c Hrun). simpl.
      destruct (is_aware (start_time p)) eqn:Hk.
      * rewrite datetime_sub_mixed by (unfold is_aware at 1; simpl; congruence).
        split; [now intros x [= <-]|]. split; [|reflexivity].
        intros _. right. split; [exact Hrun | reflexivity].
      * rewrite datetime_sub_ok; [|exact Hnow|exact Hst|now rewrite Hk].
        split; [discriminate|]. split; [discriminate|].
        intros [[Hgates _] | [_ Habs]]; [contradiction | discriminate].
    + assert (Hup : uptime p c = (Ok timedelta_zero, c)).
      { unfold uptime. rewrite andb_comm, Hg.
        apply String.eqb_neq in Hnr. now rewrite Hnr. }
      unfold outcome. rewrite Hup. simpl.
      split; [discriminate|]. split; [discriminate|].
      intros [[Hgates _] | [Hrun _]]; contradiction.
Qed.

(** X9. The uptime of a Running pod is not repeatable: each evaluation
    reads the clock once, and the second of two successive evaluations
    exceeds the first by exactly the time between the two readings. *)
Theorem uptime_running_follows_clock (p : Pod) (c : Clock) :
  status p = "Running" ->
  wf_pod p = true ->
  is_aware (start_time p) = false ->
  wf_clock c = true ->
  wf_clock (mkClock (clock_ticks c) (S (clock_reads c))) = true ->
  (up1 <- uptime p ;; up2 <- uptime p ;; ret (up2 - up1)) c =
  (Ok (clock_ticks c (S (clock_reads c)) - clock_ticks c (clock_reads c)),
   mkClock (clock_ticks c) (S (S (clock_reads c)))).
Proof.
  intros Hrun Hwf Hk Hc Hc'.
  unfold wf_pod in Hwf. apply andb_true_iff in Hwf as [Hst _].
  unfold bind. rewrite (uptime_running p _ Hrun).
  rewrite datetime_sub_ok;
    [|now apply wf_naive_tick|exact Hst|now rewrite Hk].
  cbv beta iota. rewrite (uptime_running p _ Hrun).
  rewrite datetime_sub_ok;
    [|now apply (wf_naive_tick _ Hc')|exact Hst|now rewrite Hk].
  unfold ret, difference, same_tzinfo, is_aware, naive in *. simpl.
  destruct (dt_tzinfo (start_time p)); [discriminate|].
  f_equal. f_equal. lia.
Qed.

(** ** The test class *)

Lemma in_datetime_range_spec (us : Z) :
  in_datetime_range us = true <-> 0 <= us <= DATETIME_MAX.
Proof. unfold in_datetime_range. rewrite andb_true_iff, !Z.leb_le. tauto. Qed.

Lemma t_bind_passed {A B} (m : T A) (k : A -> T B) (c c' : Clock) (a : A) :
  m c = (Passed a, c') -> t_bind m k c = k a c'.
Proof. unfold t_bind. now intros ->. Qed.

Lemma t_call_ok {A} (m : M A) (c c' : Clock) (a : A) :
  m c = (Ok a, c') -> t_call m c = (Passed a, c').
Proof. unfold t_call. now intros ->. Qed.

Lemma before_ok (b h m s : Z) (c : Clock) :
  in_timedelta_range (h * US_PER_HOUR + m * US_PER_MINUTE + s * US_PER_SECOND)
  = true ->
  in_datetime_range
    (b - (h * US_PER_HOUR + m * US_PER_MINUTE + s * US_PER_SECOND)) = true ->
  TestTimeFailurePattern.before (naive b) h m s c =
  (Passed (naive (b - (h * US_PER_HOUR + m * US_PER_MINUTE + s * US_PER_SECOND))),
   c).
Proof.
  intros Htd Hdt.
  unfold TestTimeFailurePattern.before, t_bind, t_eval, t_call, lift,
    timedelta_of, new_timedelta, datetime_sub_timedelta.
  rewrite Htd. simpl. now rewrite Hdt.
Qed.

Lemma after_ok (b h m s : Z) (c : Clock) :
  in_timedelta_range (h * US_PER_HOUR + m * US_PER_MINUTE + s * US_PER_SECOND)
  = true ->
  in_datetime_range
    (b + (h * US_PER_HOUR + m * US_PER_MINUTE + s * US_PER_SECOND)) = true ->
  TestTimeFailurePattern.after (naive b) h m s c =
  (Passed (naive (b + (h * US_PER_HOUR + m * US_PER_MINUTE + s * US_PER_SECOND))),
   c).
Proof.
  intros Htd Hdt.
  unfold TestTimeFailurePattern.after, t_bind, t_eval, t_call, lift,
    timedelta_of, new_timedelta, datetime_add_timedelta.
  rewrite Htd. simpl. now rewrite Hdt.
Qed.

(** The decision for a pod with two naive timestamps. *)
Lemma pod_decision_naive (n s : string) (a f : Z) (e t : timedelta) :
  str_in s FAILURE_STATUSES = true ->
  in_timedelta_range (f - a) = true ->
  in_timedelta_range (f - a - e) = true ->
  pod_decision e t (mkPod n s (naive a) (Some (naive f))) =
  Ok (Z.abs (f - a - e) <=? t).
Proof.
  intros Hs Hr1 Hr2. unfold pod_decision. cbn [status failure_time start_time].
  rewrite Hs. cbn [truthy andb optional_datetime_sub].
  unfold datetime_sub, same_tzinfo, naive. cbn [dt_tzinfo dt_micros].
  rewrite (new_timedelta_ok _ Hr1). cbn [result_bind].
  unfold timedelta_sub. rewrite (new_timedelta_ok _ Hr2). cbn [result_bind].
  now rewrite (timedelta_abs_ok _ Hr2).
Qed.

Lemma pod_decision_no_failure_time (n s : string) (a : datetime)
    (e t : timedelta) :
  pod_decision e t (mkPod n s a None) = Ok false.
Proof.
  unfold pod_decision. cbn [status failure_time truthy].
  now rewrite andb_false_r.
Qed.

Ltac unfold_units :=
  unfold default_expected_failure_time, default_tolerance, DATETIME_MAX,
    TIMEDELTA_MIN, TIMEDELTA_MAX, US_PER_DAY, US_PER_HOUR, US_PER_MINUTE,
    US_PER_SECOND in *.

Ltac units := unfold_units; lia.

Ltac in_range :=
  first [ apply in_timedelta_range_spec; units
        | apply in_datetime_range_spec; units
        | reflexivity ].

(** Runs [setUp], names the reading of the clock, and keeps its bounds. *)
Ltac start_test Hc b :=
  unfold TestTimeFailurePattern.clock_in_range in Hc;
  apply andb_true_iff in Hc as [?Hlo ?Hhi];
  apply Z.leb_le in Hlo, Hhi;
  unfold TestTimeFailurePattern.run_test;
  erewrite t_bind_passed by reflexivity;
  match goal with
  | H : _ <= clock_ticks ?c (clock_reads ?c) |- _ =>
      set (b := clock_ticks c (clock_reads c)) in *
  end.

(** Evaluates the timestamps a test builds from [base_time]. *)
Ltac build_timestamps :=
  repeat (erewrite t_bind_passed
            by first [ apply before_ok; in_range | apply after_ok; in_range ]).

(** Decides the comparisons with the tolerance that remain in the goal. *)
Ltac decide_tolerance :=
  repeat match goal with
         | |- context [?x <=? ?y] =>
             destruct (Z.leb_spec x y); try (exfalso; units)
         end.

(** Runs the loop on pods with naive timestamps. *)
Ltac run_detect :=
  erewrite t_bind_passed;
  [| apply t_call_ok; unfold detect_time_failure_pattern;
     rewrite ?detect_loop_cons, ?pod_decision_no_failure_time;
     rewrite ?pod_decision_naive by in_range;
     decide_tolerance; reflexivity ].

Lemma timedelta_of_ok (h m s : Z) (c : Clock) :
  in_timedelta_range (h * US_PER_HOUR + m * US_PER_MINUTE + s * US_PER_SECOND)
  = true ->
  t_eval (timedelta_of h m s) c =
  (Passed (h * US_PER_HOUR + m * US_PER_MINUTE + s * US_PER_SECOND), c).
Proof.
  intros Htd. unfold t_eval, t_call, lift, timedelta_of, new_timedelta.
  now rewrite Htd.
Qed.

(** Checks the assertions on the list the call returned. *)
Ltac check_assertions :=
  repeat (erewrite t_bind_passed by reflexivity); reflexivity.

(** X10. [test_detect_pods_failing_at_10_minutes] passes whenever it is
    run: for every reading of the clock in [setUp] (from which the
    timestamps it builds are dates) the three pods are returned and both
    assertions hold; the clock is read once, in [setUp]. *)
Theorem passes_test_detect_pods_failing_at_10_minutes (c : Clock) :
  TestTimeFailurePattern.clock_in_range c = true ->
  TestTimeFailurePattern.run_test
    TestTimeFailurePattern.test_detect_pods_failing_at_10_minutes c =
  (Passed tt, mkClock (clock_ticks c) (S (clock_reads c))).
Proof.
  intros Hc. start_test Hc b.
  unfold TestTimeFailurePattern.test_detect_pods_failing_at_10_minutes.
  build_timestamps. cbv zeta. run_detect. check_assertions.
Qed.

(** X11. [test_ignore_pods_failing_at_different_times] passes whenever it
    is run: pods that failed after 5 minutes, 15 minutes and one hour are
    not returned under the default parameters, whatever the clock
    reads. *)
Theorem passes_test_ignore_pods_failing_at_different_times (c : Clock) :
  TestTimeFailurePattern.clock_in_range c = true ->
  TestTimeFailurePattern.run_test
    TestTimeFailurePattern.test_ignore_pods_failing_at_different_times c =
  (Passed tt, mkClock (clock_ticks c) (S (clock_reads c))).
Proof.
  intros Hc. start_test Hc b.
  unfold TestTimeFailurePattern.test_ignore_pods_failing_at_different_times.
  build_timestamps. cbv zeta. run_detect. check_assertions.
Qed.

(** X12. [test_ignore_running_pods] passes whenever it is run: the two
    Running pods are skipped without their uptime being computed, so the
    test does not depend on how long it takes to run. *)
Theorem passes_test_ignore_running_pods (c : Clock) :
  TestTimeFailurePattern.clock_in_range c = true ->
  TestTimeFailurePattern.run_test
    TestTimeFailurePattern.test_ignore_running_pods c =
  (Passed tt, mkClock (clock_ticks c) (S (clock_reads c))).
Proof.
  intros Hc. start_test Hc b.
  unfold TestTimeFailurePattern.test_ignore_running_pods.
  build_timestamps. cbv zeta. run_detect. check_assertions.
Qed.

(** X13. [test_custom_failure_time_and_tolerance] passes whenever it is
    run: with an expected failure time of 5 minutes and a tolerance of 15
    seconds, the pods that failed after 5min10s and 4min50s are returned
    and the one that failed after 10 minutes is not. *)
Theorem passes_test_custom_failure_time_and_tolerance (c : Clock) :
  TestTimeFailurePattern.clock_in_range c = true ->
  TestTimeFailurePattern.run_test
    TestTimeFailurePattern.test_custom_failure_time_and_tolerance c =
  (Passed tt, mkClock (clock_ticks c) (S (clock_reads c))).
Proof.
  intros Hc. start_test Hc b.
  unfold TestTimeFailurePattern.test_custom_failure_time_and_tolerance.
  build_timestamps. cbv zeta.
  do 2 (erewrite t_bind_passed by (apply timedelta_of_ok; reflexivity)).
  run_detect. check_assertions.
Qed.

(** X14. [test_pods_without_failure_time] passes whenever it is run: of
    two pods in a failure state that started ten minutes before the clock
    was read, only the one with a failure time is returned. *)
Theorem passes_test_pods_without_failure_time (c : Clock) :
  TestTimeFailurePattern.clock_in_range c = true ->
  TestTimeFailurePattern.run_test
    TestTimeFailurePattern.test_pods_without_failure_time c =
  (Passed tt, mkClock (clock_ticks c) (S (clock_reads c))).
Proof.
  intros Hc. start_test Hc b.
  unfold TestTimeFailurePattern.test_pods_without_failure_time.
  build_timestamps. cbv zeta. run_detect. check_assertions.
Qed.

(** ** Instances of the further properties *)

Lemma detect_tolerance_monotone_witness :
  exists r',
    outcome (detect_time_failure_pattern [on_boundary; past_boundary]
               default_expected_failure_time (default_tolerance + 1)) clock0
    = Ok r' /\
    sublist [on_boundary] r'.
Proof.
  apply (proj1 (detect_tolerance_monotone [on_boundary; past_boundary]
                  default_expected_failure_time default_tolerance
                  (default_tolerance + 1) clock0 ltac:(lia))).
  reflexivity.
Defined.

Lemma detect_raises_at_first_unsafe_pod_witness :
  exists ft,
    failure_time mixed_kinds = Some ft /\
    outcome (detect_time_failure_pattern
               ([failed_at_10_minutes] ++ mixed_kinds :: [on_boundary])
               default_expected_failure_time default_tolerance) clock0 =
    Raise (if Bool.eqb (is_aware ft) (is_aware (start_time mixed_kinds))
           then OverflowError else TypeError).
Proof.
  apply detect_raises_at_first_unsafe_pod; reflexivity.
Defined.

Lemma detect_permutation_witness :
  exists r',
    outcome (detect_time_failure_pattern
               [failed_at_10_minutes; pending; on_boundary]
               default_expected_failure_time default_tolerance) clock0 = Ok r' /\
    Permutation [on_boundary; failed_at_10_minutes] r'.
Proof.
  apply (detect_permutation [pending; on_boundary; failed_at_10_minutes]
           [failed_at_10_minutes; pending; on_boundary]
           default_expected_failure_time default_tolerance clock0).
  - apply Permutation_sym.
    apply (Permutation_cons_append [pending; on_boundary] failed_at_10_minutes).
  - reflexivity.
Defined.

Lemma detect_shift_invariant_witness :
  outcome (detect_time_failure_pattern
             (map (shift_pod (14 * US_PER_DAY))
                  [Zones.across_dst; failed_at_10_minutes])
             default_expected_failure_time default_tolerance) clock0 =
  Ok [shift_pod (14 * US_PER_DAY) failed_at_10_minutes].
Proof.
  apply (detect_shift_invariant (14 * US_PER_DAY)
           [Zones.across_dst; failed_at_10_minutes]
           default_expected_failure_time default_tolerance clock0).
  reflexivity.
Defined.

Lemma detect_window_witness :
  In failed_at_10_minutes [failed_at_10_minutes] <->
  In failed_at_10_minutes pods_without_failure_time /\
  passes_gates failed_at_10_minutes /\
  default_expected_failure_time - default_tolerance
    <= elapsed failed_at_10_minutes
    <= default_expected_failure_time + default_tolerance.
Proof.
  apply (detect_window pods_without_failure_time default_expected_failure_time
           default_tolerance clock0 [failed_at_10_minutes]).
  reflexivity.
Defined.

Lemma uptime_raises_iff_witness :
  outcome (uptime running_aware) clock0 = Raise TypeError /\
  outcome (uptime mixed_kinds) clock0 = Raise TypeError.
Proof.
  split.
  - apply (proj2 (uptime_raises_iff running_aware clock0 eq_refl eq_refl)).
    right. split; reflexivity.
  - apply (proj2 (uptime_raises_iff mixed_kinds clock0 eq_refl eq_refl)).
    left. split.
    + split; [left; reflexivity | discriminate].
    + eexists. split; [reflexivity | discriminate].
Defined.

Lemma uptime_running_follows_clock_witness :
  (up1 <- uptime running_10_minutes ;;
   up2 <- uptime running_10_minutes ;;
   ret (up2 - up1)) clock0 =
  (Ok (clock_ticks clock0 1 - clock_ticks clock0 0),
   mkClock (clock_ticks clock0) 2).
Proof.
  apply (uptime_running_follows_clock running_10_minutes clock0); reflexivity.
Defined.

Lemma passes_test_detect_pods_failing_at_10_minutes_witness :
  TestTimeFailurePattern.run_test
    TestTimeFailurePattern.test_detect_pods_failing_at_10_minutes clock0 =
  (Passed tt, mkClock (clock_ticks clock0) 1).
Proof.
  apply passes_test_detect_pods_failing_at_10_minutes. reflexivity.
Defined.

Lemma passes_test_ignore_pods_failing_at_different_times_witness :
  TestTimeFailurePattern.run_test
    TestTimeFailurePattern.test_ignore_pods_failing_at_different_times clock0 =
  (Passed tt, mkClock (clock_ticks clock0) 1).
Proof.
  apply passes_test_ignore_pods_failing_at_different_times. reflexivity.
Defined.

Lemma passes_test_ignore_running_pods_witness :
  TestTimeFailurePattern.run_test
    TestTimeFailurePattern.test_ignore_running_pods clock0 =
  (Passed tt, mkClock (clock_ticks clock0) 1).
Proof.
  apply passes_test_ignore_running_pods. reflexivity.
Defined.

Lemma passes_test_custom_failure_time_and_tolerance_witness :
  TestTimeFailurePattern.run_test
    TestTimeFailurePattern.test_custom_failure_time_and_tolerance clock0 =
  (Passed tt, mkClock (clock_ticks clock0) 1).
Proof.
  apply passes_test_custom_failure_time_and_tolerance. reflexivity.
Defined.

Lemma passes_test_pods_without_failure_time_witness :
  TestTimeFailurePattern.run_test
    TestTimeFailurePattern.test_pods_without_failure_time clock0 =
  (Passed tt, mkClock (clock_ticks clock0) 1).
Proof.
  apply passes_test_pods_without_failure_time. reflexivity.
Defined.
